(** * Data-lake ingestion and storage layer

    A shallow embedding of [data_domain/lake/fetchers.py] and
    [data_domain/lake/storage.py].  Python functions become functions in a
    small exception-and-state monad: an exception does not roll back the
    effects that happened before it, so a computation always returns the
    final world next to its outcome. *)

From Stdlib Require Import ZArith Ascii String List Lia DecimalString DecimalZ.
From Stdlib.Strings Require Import Byte.
From stdpp Require Import gmap strings list.

Set Warnings "-register-all".

Open Scope Z_scope.

(** ** Python exceptions raised by the two modules and their libraries *)

Inductive Exn :=
  | FileExistsError
  | NotADirectoryError
  | IsADirectoryError
  | FileNotFoundError (msg : string)
  | HTTPError (status : Z)
  | RuntimeError (msg : string)
  | CalledProcessError (returncode : Z)
  | ConnectionError
  | JSONDecodeError
  | KeyError (key : string)
  | TypeError
  | S3Error (code : string)
  | ValueError (msg : string)
  | IOError (msg : string)
  | ArrowInvalid.

#[global] Instance Exn_eq_dec : EqDecision Exn.
Proof. solve_decision. Defined.

(** ** Outcomes and the monad *)

Inductive Result (A : Type) :=
  | Ok (a : A)
  | Raise (e : Exn).
Arguments Ok {A} a.
Arguments Raise {A} e.

Definition Py (W A : Type) : Type := W -> Result A * W.

Definition ret {W A} (a : A) : Py W A := fun w => (Ok a, w).
Definition raise {W A} (e : Exn) : Py W A := fun w => (Raise e, w).
Definition bind {W A B} (m : Py W A) (k : A -> Py W B) : Py W B :=
  fun w => match m w with
           | (Ok a, w') => k a w'
           | (Raise e, w') => (Raise e, w')
           end.

Notation "'let*' x ':=' m 'in' k" := (bind m (fun x => k))
  (at level 10, x pattern, m at level 100, k at level 200).
Notation "m ';;' k" := (bind m (fun _ => k))
  (at level 100, k at level 200, right associativity).

Definition is_ok {A} (r : Result A) : bool :=
  match r with Ok _ => true | Raise _ => false end.

(** ** Strings: [str.split], formatting of integers *)

Definition slash : ascii := Ascii.ascii_of_nat 47.
Definition dquote : string := String (Ascii.ascii_of_nat 34) EmptyString.

(** [s.split(sep)] for a one-character separator: never empty. *)
Fixpoint split (sep : ascii) (s : string) : list string :=
  match s with
  | EmptyString => [EmptyString]
  | String c s' =>
      if Ascii.eqb c sep then EmptyString :: split sep s'
      else match split sep s' with
           | [] => [String c EmptyString]
           | w :: ws => String c w :: ws
           end
  end.

(** [s.split("/")[-1]] *)
Definition last_segment (s : string) : string := List.last (split slash s) "".

(** [f"{n}"] for a Python [int]. *)
Definition str_of_int (n : Z) : string := NilZero.string_of_int (Z.to_int n).

Fixpoint has_char (c : ascii) (s : string) : bool :=
  match s with
  | EmptyString => false
  | String a s' => Ascii.eqb a c || has_char c s'
  end.

Fixpoint ends_with (suffix s : string) : bool :=
  String.eqb s suffix ||
  match s with
  | EmptyString => false
  | String _ s' => ends_with suffix s'
  end.

(** ** [pathlib.PurePosixPath] *)

Record Path := mkPath { root : string; parts : list string }.

#[global] Instance Path_eq_dec : EqDecision Path.
Proof. solve_decision. Defined.

#[global] Instance Path_countable : Countable Path :=
  inj_countable' (fun p => (root p, parts p)) (fun rp => mkPath rp.1 rp.2)
                 (fun p => match p with mkPath _ _ => eq_refl end).

(** [posixpath.splitroot]: [""], ["/"], or ["//"] for exactly two slashes. *)
Definition root_of (s : string) : string :=
  match s with
  | String a (String b (String c _)) =>
      if Ascii.eqb a slash then
        if Ascii.eqb b slash then (if Ascii.eqb c slash then "/" else "//")
        else "/"
      else ""
  | String a (String b EmptyString) =>
      if Ascii.eqb a slash then (if Ascii.eqb b slash then "//" else "/") else ""
  | String a EmptyString => if Ascii.eqb a slash then "/" else ""
  | EmptyString => ""
  end.

Definition keep_part (x : string) : bool :=
  negb (String.eqb x "") && negb (String.eqb x ".").

(** The components of a path string: empty and ["."] segments are dropped. *)
Definition parse_parts (s : string) : list string :=
  List.filter keep_part (split slash s).

(** [Path(s)] *)
Definition path_of_string (s : string) : Path :=
  mkPath (root_of s) (parse_parts s).

(** [dest / name] for a string [name]: an absolute [name] replaces [dest]. *)
Definition path_join (dest : Path) (name : string) : Path :=
  if String.eqb (root_of name) "" then mkPath (root dest) (parts dest ++ parse_parts name)
  else path_of_string name.

(** [p.parent] and [p.name] *)
Definition parent (p : Path) : Path := mkPath (root p) (removelast (parts p)).
Definition name (p : Path) : string := List.last (parts p) "".

(** [str(p)] *)
Definition str_of_path (p : Path) : string :=
  match root p, parts p with
  | EmptyString, [] => "."
  | r, ps => r +:+ String.concat "/" ps
  end.

(** ** The local filesystem *)

Inductive Node :=
  | Dir
  | File (content : string).

#[global] Instance Node_eq_dec : EqDecision Node.
Proof. solve_decision. Defined.

Abbreviation FS := (gmap Path Node).

(** The anchor of a path (the working directory or the root) always exists. *)
Definition node_at (fs : FS) (p : Path) : option Node :=
  match parts p with
  | [] => Some Dir
  | _ => fs !! p
  end.

Definition is_dir (fs : FS) (p : Path) : bool :=
  match node_at fs p with Some Dir => true | _ => false end.

(** [Path.mkdir(parents=True, exist_ok=True)]: walk down from the anchor,
    pass through directories, create what is missing.  A regular file in the
    way is [NotADirectoryError] for an ancestor and [FileExistsError] for
    the path itself. *)
Fixpoint mkdir_walk (r : string) (done todo : list string) (fs : FS) : Exn + FS :=
  match todo with
  | [] => inr fs
  | c :: rest =>
      let p := mkPath r (done ++ [c]) in
      match fs !! p with
      | Some Dir => mkdir_walk r (done ++ [c]) rest fs
      | Some (File _) =>
          inl (match rest with [] => FileExistsError | _ => NotADirectoryError end)
      | None => mkdir_walk r (done ++ [c]) rest (<[p := Dir]> fs)
      end
  end.

Definition mkdir_p (p : Path) (fs : FS) : Exn + FS :=
  mkdir_walk (root p) [] (parts p) fs.

(** [open(p, "w")] followed by a write: the parent must be a directory and
    [p] must not be one. *)
Definition write_file (p : Path) (data : string) (fs : FS) : Exn + FS :=
  match parts p with
  | [] => inl IsADirectoryError
  | _ =>
      match node_at fs (parent p) with
      | None => inl (FileNotFoundError (str_of_path p))
      | Some (File _) => inl NotADirectoryError
      | Some Dir =>
          match fs !! p with
          | Some Dir => inl IsADirectoryError
          | _ => inr (<[p := File data]> fs)
          end
      end
  end.

(** Two filesystems hold the same regular files with the same contents. *)
Definition same_files (f f' : FS) : Prop :=
  forall q data, f' !! q = Some (File data) <-> f !! q = Some (File data).

(** [fnmatch(name, "*.zip")] *)
Definition matches_zip (nm : string) : bool := ends_with ".zip" nm.

(** [list(dest.glob("*.zip"))]: the entries of [dest] whose name matches.
    The order of a directory listing is unspecified; the map's enumeration
    order stands for it. *)
Definition glob_zip (dest : Path) (fs : FS) : list Path :=
  List.filter
    (fun p => bool_decide (parts p ≠ [] ∧ parent p = dest) && matches_zip (name p))
    (if is_dir fs dest then (map_to_list fs).*1 else []).

(** * The fetchers ([data_domain/lake/fetchers.py]) *)

Module Fetchers.

(** ** What a fetcher can observe and change *)

Inductive Event :=
  | EvMkdir (p : Path)
  | EvGet (url : string)
  | EvRun (argv : list string)
  | EvWrite (p : Path) (data : string).

#[global] Instance Event_eq_dec : EqDecision Event.
Proof. solve_decision. Defined.

Record World := mkWorld { fs : FS; trace : list Event }.

Definition log (e : Event) (w : World) : World :=
  mkWorld (fs w) (trace w ++ [e]).
Definition set_fs (f : FS) (w : World) : World := mkWorld f (trace w).

(** A decoded JSON document, as [Response.json()] returns it. *)
Inductive JSON :=
  | JNull
  | JBool (b : bool)
  | JNum (n : Z)
  | JStr (s : string)
  | JList (items : list JSON)
  | JDict (items : list (string * JSON)).

(** A [requests.Response]; [json] is [None] when the body does not decode. *)
Record Response := mkResponse {
  status_code : Z;
  text : string;
  content : string;
  json : option JSON
}.

Inductive NetOutcome :=
  | Responded (r : Response)
  | Failed (e : Exn).

(** The outside world: the transport behind [requests.get] and the external
    command behind [subprocess.run], which returns an exit status and may
    change the filesystem. *)
Record Env := mkEnv {
  http : string -> NetOutcome;
  run_process : list string -> FS -> Z * FS
}.

(** ** Primitive operations *)

(** [dest.mkdir(parents=True, exist_ok=True)] *)
Definition mkdir (p : Path) : Py World unit := fun w =>
  let w1 := log (EvMkdir p) w in
  match mkdir_p p (fs w1) with
  | inl e => (Raise e, w1)
  | inr f => (Ok tt, set_fs f w1)
  end.

(** [requests.get(url)] *)
Definition requests_get (env : Env) (url : string) : Py World Response := fun w =>
  let w1 := log (EvGet url) w in
  match http env url with
  | Responded r => (Ok r, w1)
  | Failed e => (Raise e, w1)
  end.

(** [Response.raise_for_status()]: [requests] raises [HTTPError] for the
    client-error and server-error ranges, 400 <= status < 600, and for no
    other status. *)
Definition raise_for_status (r : Response) : Py World unit :=
  if (400 <=? status_code r) && (status_code r <? 600)
  then raise (HTTPError (status_code r))
  else ret tt.

(** [r.json()] *)
Definition response_json (r : Response) : Py World JSON :=
  match json r with
  | Some j => ret j
  | None => raise JSONDecodeError
  end.

(** [obj[key]] on a decoded document *)
Fixpoint dict_get (key : string) (items : list (string * JSON)) : option JSON :=
  match items with
  | [] => None
  | (k, v) :: rest => if String.eqb k key then Some v else dict_get key rest
  end.

Definition subscript (obj : JSON) (key : string) : Py World JSON :=
  match obj with
  | JDict items =>
      match dict_get key items with
      | Some v => ret v
      | None => raise (KeyError key)
      end
  | _ => raise TypeError
  end.

(** [file_path.write_text(data, encoding="utf-8")] and
    [file_path.write_bytes(data)] *)
Definition write_file_at (p : Path) (data : string) : Py World unit := fun w =>
  let w1 := log (EvWrite p data) w in
  match write_file p data (fs w1) with
  | inl e => (Raise e, w1)
  | inr f => (Ok tt, set_fs f w1)
  end.

(** [subprocess.run(argv, check=True)] *)
Definition subprocess_run (env : Env) (argv : list string) : Py World unit := fun w =>
  let w1 := log (EvRun argv) w in
  let '(code, f) := run_process env argv (fs w1) in
  let w2 := set_fs f w1 in
  if code =? 0 then (Ok tt, w2) else (Raise (CalledProcessError code), w2).

(** [list(dest.glob("*.zip"))] *)
Definition glob (dest : Path) : Py World (list Path) := fun w =>
  (Ok (glob_zip dest (fs w)), w).

(** ** Configuration *)

Definition DATA_DIR : Path := path_of_string "./data_raw".

(** [dest or DATA_DIR]: a [Path] is always truthy. *)
Definition or_DATA_DIR (dest : option Path) : Path := default DATA_DIR dest.

(** ** The fetchers *)

Definition fetch_kaggle_dataset (env : Env) (dataset : string) (dest : option Path)
  : Py World Path :=
  let dest := or_DATA_DIR dest in
  mkdir dest ;;
  let kaggle_cmd :=
    ["kaggle"; "datasets"; "download"; "-d"; dataset; "-p"; str_of_path dest] in
  subprocess_run env kaggle_cmd ;;
  let* zip_files := glob dest in
  match zip_files with
  | [] => raise (FileNotFoundError "No zip file found after Kaggle download.")
  | z :: _ => ret z
  end.

Definition fetch_kaggle_competition (env : Env) (competition : string) (dest : option Path)
  : Py World Path :=
  let dest := or_DATA_DIR dest in
  mkdir dest ;;
  let kaggle_cmd :=
    ["kaggle"; "competitions"; "download"; "-c"; competition; "-p"; str_of_path dest] in
  subprocess_run env kaggle_cmd ;;
  let* zip_files := glob dest in
  match zip_files with
  | [] => raise (FileNotFoundError "No zip file found after Kaggle download.")
  | z :: _ => ret z
  end.

Definition nadlan_gov_url (year : Z) : string :=
  "https://data.gov.il/api/3/action/datastore_search"
  +:+ "?resource_id=da54c6e7-6c2c-4e7b-9eae-32f7e7fb1317"
  +:+ "&limit=100000&filters={" +:+ dquote +:+ "year" +:+ dquote +:+ ":"
  +:+ str_of_int year +:+ "}".

Definition fetch_nadlan_gov_transactions (env : Env) (year : Z) (dest : option Path)
  : Py World Path :=
  let url := nadlan_gov_url year in
  let dest := or_DATA_DIR dest in
  mkdir dest ;;
  let* r := requests_get env url in
  raise_for_status r ;;
  let file_path := path_join dest ("nadlan_transactions_" +:+ str_of_int year +:+ ".json") in
  write_file_at file_path (text r) ;;
  ret file_path.

Definition fetch_nadlan_taxes_transactions (env : Env) (page : Z) (dest : option Path)
  : Py World Path :=
  let url := "https://nadlan.taxes.gov.il/some_endpoint?page=" +:+ str_of_int page in
  let dest := or_DATA_DIR dest in
  mkdir dest ;;
  let* r := requests_get env url in
  raise_for_status r ;;
  let file_path := path_join dest ("nadlan_taxes_page_" +:+ str_of_int page +:+ ".html") in
  write_file_at file_path (text r) ;;
  ret file_path.

(** [requests.get] refuses a URL that is not a string before anything is
    sent. *)
Definition as_url (j : JSON) : Py World string :=
  match j with
  | JStr s => ret s
  | _ => raise (ValueError "Invalid URL")
  end.

Definition fetch_datagov_resource (env : Env) (resource_id : string) (dest : option Path)
  : Py World Path :=
  let info_url := "https://data.gov.il/api/3/action/resource_show?id=" +:+ resource_id in
  let* r := requests_get env info_url in
  raise_for_status r ;;
  let* info := response_json r in
  let* result := subscript info "result" in
  let* url := subscript result "url" in
  let dest := or_DATA_DIR dest in
  mkdir dest ;;
  let* url := as_url url in
  let* r2 := requests_get env url in
  raise_for_status r2 ;;
  let file_name := last_segment url in
  let file_path := path_join dest file_name in
  write_file_at file_path (content r2) ;;
  ret file_path.

Definition fetch_cbs_table (env : Env) (table_id : string) (dest : option Path)
  : Py World Path :=
  let base_url := "https://www.cbs.gov.il/he/publications/doclib" in
  let url := base_url +:+ "/" +:+ table_id in
  let dest := or_DATA_DIR dest in
  mkdir dest ;;
  let* r := requests_get env url in
  raise_for_status r ;;
  let file_name := last_segment url in
  let file_path := path_join dest file_name in
  write_file_at file_path (content r) ;;
  ret file_path.

Definition fetch_opentaba_plan (env : Env) (plan_id : string) (dest : option Path)
  : Py World Path :=
  let url := "https://opentaba-server.herokuapp.com/api/plans/" +:+ plan_id in
  let dest := or_DATA_DIR dest in
  mkdir dest ;;
  let* r := requests_get env url in
  raise_for_status r ;;
  let file_path := path_join dest ("opentaba_plan_" +:+ plan_id +:+ ".json") in
  write_file_at file_path (text r) ;;
  ret file_path.

Definition fetch_citizens4citizens_projects (env : Env) (dest : option Path)
  : Py World Path :=
  let url := "https://c4c.org.il/api/projects" in
  let dest := or_DATA_DIR dest in
  mkdir dest ;;
  let* r := requests_get env url in
  (if negb (status_code r =? 200)
   then raise (RuntimeError "API endpoint not available or has changed.")
   else ret tt) ;;
  let file_path := path_join dest "c4c_projects.json" in
  write_file_at file_path (text r) ;;
  ret file_path.

Definition fetch_askdata_housing_plans (env : Env) (dest : option Path)
  : Py World Path :=
  let url := "https://askdata.co.il/api/plans?limit=1000" in
  let dest := or_DATA_DIR dest in
  mkdir dest ;;
  let* r := requests_get env url in
  (if negb (status_code r =? 200)
   then raise (RuntimeError "API endpoint not available or has changed.")
   else ret tt) ;;
  let file_path := path_join dest "askdata_housing_plans.json" in
  write_file_at file_path (text r) ;;
  ret file_path.

Definition fetch_hasadna_openpolice_crime (env : Env) (city : string) (dest : option Path)
  : Py World Path :=
  let url := "https://openpolice.hasadna.org.il/api/events/?city=" +:+ city in
  let dest := or_DATA_DIR dest in
  mkdir dest ;;
  let* r := requests_get env url in
  raise_for_status r ;;
  let file_path := path_join dest ("hasadna_openpolice_" +:+ city +:+ ".json") in
  write_file_at file_path (text r) ;;
  ret file_path.

Definition fetch_hasadna_openmunicipality_air (env : Env) (city_code : Z) (dest : option Path)
  : Py World Path :=
  let url := "https://municipaldata.hasadna.org.il/api/air_quality/" +:+ str_of_int city_code in
  let dest := or_DATA_DIR dest in
  mkdir dest ;;
  let* r := requests_get env url in
  raise_for_status r ;;
  let file_path :=
    path_join dest ("hasadna_openmunicipality_air_" +:+ str_of_int city_code +:+ ".json") in
  write_file_at file_path (text r) ;;
  ret file_path.

Definition fetch_kaggle_zillow_prize (env : Env) (dest : option Path) : Py World Path :=
  fetch_kaggle_competition env "zillow-prize-1" dest.

Definition fetch_kaggle_california_housing (env : Env) (dest : option Path) : Py World Path :=
  fetch_kaggle_dataset env "camnugent/california-housing-prices" dest.

Definition fetch_kaggle_ames_iowa (env : Env) (dest : option Path) : Py World Path :=
  fetch_kaggle_competition env "house-prices-advanced-regression-techniques" dest.

(** ** The common shape of the single-request fetchers

    Eight fetchers differ only in the URL, in how the response is checked, in
    the file name and in which view of the body is written. *)
Definition single_request_fetch (env : Env) (url : string)
    (check : Response -> Py World unit) (file_name : string)
    (payload : Response -> string) (dest : option Path) : Py World Path :=
  let dest := or_DATA_DIR dest in
  mkdir dest ;;
  let* r := requests_get env url in
  check r ;;
  let file_path := path_join dest file_name in
  write_file_at file_path (payload r) ;;
  ret file_path.

(** [if r.status_code != 200: raise RuntimeError(...)] *)
Definition require_200 (r : Response) : Py World unit :=
  if negb (status_code r =? 200)
  then raise (RuntimeError "API endpoint not available or has changed.")
  else ret tt.

(** ** The registry *)

(** One constructor per fetcher, carrying its source-specific parameters. *)
Inductive Invocation :=
  | KaggleDataset (dataset : string)
  | KaggleCompetition (competition : string)
  | NadlanGov (year : Z)
  | NadlanTaxes (page : Z)
  | Datagov (resource_id : string)
  | Cbs (table_id : string)
  | Opentaba (plan_id : string)
  | C4c
  | Askdata
  | HasadnaCrime (city : string)
  | HasadnaAir (city_code : Z)
  | KaggleZillow
  | KaggleCalifornia
  | KaggleAmes.

Definition invoke (env : Env) (i : Invocation) (dest : option Path) : Py World Path :=
  match i with
  | KaggleDataset d => fetch_kaggle_dataset env d dest
  | KaggleCompetition c => fetch_kaggle_competition env c dest
  | NadlanGov y => fetch_nadlan_gov_transactions env y dest
  | NadlanTaxes p => fetch_nadlan_taxes_transactions env p dest
  | Datagov r => fetch_datagov_resource env r dest
  | Cbs t => fetch_cbs_table env t dest
  | Opentaba p => fetch_opentaba_plan env p dest
  | C4c => fetch_citizens4citizens_projects env dest
  | Askdata => fetch_askdata_housing_plans env dest
  | HasadnaCrime c => fetch_hasadna_openpolice_crime env c dest
  | HasadnaAir c => fetch_hasadna_openmunicipality_air env c dest
  | KaggleZillow => fetch_kaggle_zillow_prize env dest
  | KaggleCalifornia => fetch_kaggle_california_housing env dest
  | KaggleAmes => fetch_kaggle_ames_iowa env dest
  end.

Inductive Kind :=
  | KindKaggle        (* shells out to the kaggle tool *)
  | KindStatus        (* one request, checked with raise_for_status *)
  | KindUndocumented  (* one request, status compared with 200 *)
  | KindDatagov.      (* metadata lookup, then download *)

#[global] Instance Kind_eq_dec : EqDecision Kind.
Proof. solve_decision. Defined.

Definition kind (i : Invocation) : Kind :=
  match i with
  | KaggleDataset _ | KaggleCompetition _
  | KaggleZillow | KaggleCalifornia | KaggleAmes => KindKaggle
  | C4c | Askdata => KindUndocumented
  | Datagov _ => KindDatagov
  | _ => KindStatus
  end.

(** The URL of the first request a fetcher makes. *)
Definition request_url (i : Invocation) : option string :=
  match i with
  | NadlanGov y => Some (nadlan_gov_url y)
  | NadlanTaxes p => Some ("https://nadlan.taxes.gov.il/some_endpoint?page=" +:+ str_of_int p)
  | Datagov r => Some ("https://data.gov.il/api/3/action/resource_show?id=" +:+ r)
  | Cbs t => Some ("https://www.cbs.gov.il/he/publications/doclib" +:+ "/" +:+ t)
  | Opentaba p => Some ("https://opentaba-server.herokuapp.com/api/plans/" +:+ p)
  | C4c => Some "https://c4c.org.il/api/projects"
  | Askdata => Some "https://askdata.co.il/api/plans?limit=1000"
  | HasadnaCrime c => Some ("https://openpolice.hasadna.org.il/api/events/?city=" +:+ c)
  | HasadnaAir c =>
      Some ("https://municipaldata.hasadna.org.il/api/air_quality/" +:+ str_of_int c)
  | _ => None
  end.

(** The argument vector of the external command a fetcher runs. *)
Definition command_line (i : Invocation) (dest : option Path) : option (list string) :=
  let d := str_of_path (or_DATA_DIR dest) in
  match i with
  | KaggleDataset s => Some ["kaggle"; "datasets"; "download"; "-d"; s; "-p"; d]
  | KaggleCompetition s => Some ["kaggle"; "competitions"; "download"; "-c"; s; "-p"; d]
  | KaggleZillow =>
      Some ["kaggle"; "competitions"; "download"; "-c"; "zillow-prize-1"; "-p"; d]
  | KaggleCalifornia =>
      Some ["kaggle"; "datasets"; "download"; "-d";
            "camnugent/california-housing-prices"; "-p"; d]
  | KaggleAmes =>
      Some ["kaggle"; "competitions"; "download"; "-c";
            "house-prices-advanced-regression-techniques"; "-p"; d]
  | _ => None
  end.

(** The name under which a single-request fetcher stores its download. *)
Definition file_name (i : Invocation) : option string :=
  match i with
  | NadlanGov y => Some ("nadlan_transactions_" +:+ str_of_int y +:+ ".json")
  | NadlanTaxes p => Some ("nadlan_taxes_page_" +:+ str_of_int p +:+ ".html")
  | Cbs t =>
      Some (last_segment ("https://www.cbs.gov.il/he/publications/doclib" +:+ "/" +:+ t))
  | Opentaba p => Some ("opentaba_plan_" +:+ p +:+ ".json")
  | C4c => Some "c4c_projects.json"
  | Askdata => Some "askdata_housing_plans.json"
  | HasadnaCrime c => Some ("hasadna_openpolice_" +:+ c +:+ ".json")
  | HasadnaAir c => Some ("hasadna_openmunicipality_air_" +:+ str_of_int c +:+ ".json")
  | _ => None
  end.

(** The status ranges [raise_for_status] raises for. *)
Definition is_error_status (s : Z) : bool := (400 <=? s) && (s <? 600).

(** The exception a response makes a fetcher of a given kind raise. *)
Definition status_failure (k : Kind) (r : Response) : option Exn :=
  match k with
  | KindUndocumented =>
      if status_code r =? 200 then None
      else Some (RuntimeError "API endpoint not available or has changed.")
  | _ =>
      if is_error_status (status_code r) then Some (HTTPError (status_code r)) else None
  end.

(** What the metadata lookup of [fetch_datagov_resource] extracts from its
    response: [info["result"]["url"]], or the exception on the way there. *)
Definition download_url (r : Response) : Exn + JSON :=
  match status_failure KindDatagov r with
  | Some e => inl e
  | None =>
      match json r with
      | None => inl JSONDecodeError
      | Some (JDict items) =>
          match dict_get "result" items with
          | None => inl (KeyError "result")
          | Some (JDict items') =>
              match dict_get "url" items' with
              | None => inl (KeyError "url")
              | Some u => inr u
              end
          | Some _ => inl TypeError
          end
      | Some _ => inl TypeError
      end
  end.

(** The two error kinds a response status can cause. *)
Definition is_status_error (e : Exn) : bool :=
  match e with
  | HTTPError _ | RuntimeError _ => true
  | _ => false
  end.

(** An entry of directory [d] whose name matches [*.zip]. *)
Definition zip_in (d : Path) (f : FS) (p : Path) : Prop :=
  is_dir f d = true /\ is_Some (f !! p) /\ parts p <> [] /\ parent p = d /\
  matches_zip (name p) = true.

(** Two invocations of the same fetcher. *)
Definition same_fetcher (i j : Invocation) : bool :=
  match i, j with
  | KaggleDataset _, KaggleDataset _ | KaggleCompetition _, KaggleCompetition _
  | NadlanGov _, NadlanGov _ | NadlanTaxes _, NadlanTaxes _
  | Datagov _, Datagov _ | Cbs _, Cbs _ | Opentaba _, Opentaba _
  | C4c, C4c | Askdata, Askdata
  | HasadnaCrime _, HasadnaCrime _ | HasadnaAir _, HasadnaAir _
  | KaggleZillow, KaggleZillow | KaggleCalifornia, KaggleCalifornia
  | KaggleAmes, KaggleAmes => true
  | _, _ => false
  end.

(** The fetchers that build the file name from their own parameters, called
    with a parameter that holds no path separator. *)
Definition separator_free (i : Invocation) : bool :=
  match i with
  | Cbs t | Opentaba t | HasadnaCrime t => negb (has_char slash t)
  | NadlanGov _ | NadlanTaxes _ | HasadnaAir _ | C4c | Askdata => true
  | _ => false
  end.

(** Which view of the body is written: [r.content] or [r.text]. *)
Definition payload (i : Invocation) (r : Response) : string :=
  match i with
  | Cbs _ | Datagov _ => content r
  | _ => text r
  end.

(** ** Observations on a run *)

Definition is_get (e : Event) : bool := match e with EvGet _ => true | _ => false end.
Definition is_run (e : Event) : bool := match e with EvRun _ => true | _ => false end.
Definition is_write (e : Event) : bool := match e with EvWrite _ _ => true | _ => false end.

(** What a computation adds to the trace. *)
Definition events {A} (m : Py World A) (w : World) : list Event :=
  drop (length (trace w)) (trace (m w).2).

Definition requests_issued {A} (m : Py World A) (w : World) : nat :=
  length (List.filter is_get (events m w)).
Definition processes_run {A} (m : Py World A) (w : World) : nat :=
  length (List.filter is_run (events m w)).
Definition writes_issued {A} (m : Py World A) (w : World) : nat :=
  length (List.filter is_write (events m w)).

Definition mkdir_succeeds (dest : option Path) (w : World) : bool :=
  match mkdir_p (or_DATA_DIR dest) (fs w) with inr _ => true | inl _ => false end.

(** ** Scenarios *)

Definition plain_response (status : Z) (payload : string) : Response :=
  mkResponse status payload payload None.

(** A transport that answers every request with the same response, and a
    command that exits with [code] and leaves the filesystem alone. *)
Definition constant_env (r : Response) (code : Z) : Env :=
  mkEnv (fun _ => Responded r) (fun _ f => (code, f)).

(** A data.gov.il portal: the metadata lookup answers with a document that
    names the download URL, every other URL answers with the payload. *)
Definition datagov_info (url : string) : Response :=
  mkResponse 200 "" "" (Some (JDict [("result", JDict [("url", JStr url)])])).

Definition datagov_env (download_url : string) : Env :=
  mkEnv (fun u =>
           if String.eqb u download_url then Responded (plain_response 200 "a,b")
           else Responded (datagov_info download_url))
        (fun _ f => (0, f)).

Definition empty_world : World := mkWorld ∅ [].

(** A command that drops an archive into the directory it is given. *)
Definition archive_env : Env :=
  mkEnv (fun _ => Failed ConnectionError)
        (fun argv f => (0, <[path_join (path_of_string (List.last argv "")) "data.zip"
                              := File "PK"]> f)).

(** ** The command line ([main]) *)

(** What [main] prints: a line of text, or the path [pprint] is given. *)
Inductive Printed :=
  | PText (s : string)
  | PPath (p : Path).

(** The process: the world of the fetchers and the standard output. *)
Record Cli := mkCli { world : World; stdout : list Printed }.

(** How a call made by [main] ends.  The command line hands every argument
    over as a string, and a string has no [mkdir]: that call raises
    [AttributeError]. *)
Inductive Called :=
  | GavePath (p : Path)
  | Raised (e : Exn)
  | RaisedAttributeError.

(** How [main] ends: it returns, or the exception of the call is left
    uncaught. *)
Inductive Exit :=
  | Returned
  | Uncaught (e : Exn)
  | UncaughtAttributeError.

Definition called (m : Py World Path) : World -> Called * World := fun w =>
  match m w with
  | (Ok p, w') => (GavePath p, w')
  | (Raise e, w') => (Raised e, w')
  end.

(** The fetchers whose parameter is annotated [int], called with the text
    the command line gives them: [f"{year}"] of a string is the string. *)
Definition fetch_nadlan_gov_transactions_text (env : Env) (year : string)
    (dest : option Path) : Py World Path :=
  let url := "https://data.gov.il/api/3/action/datastore_search"
             +:+ "?resource_id=da54c6e7-6c2c-4e7b-9eae-32f7e7fb1317"
             +:+ "&limit=100000&filters={" +:+ dquote +:+ "year" +:+ dquote +:+ ":"
             +:+ year +:+ "}" in
  let dest := or_DATA_DIR dest in
  mkdir dest ;;
  let* r := requests_get env url in
  raise_for_status r ;;
  let file_path := path_join dest ("nadlan_transactions_" +:+ year +:+ ".json") in
  write_file_at file_path (text r) ;;
  ret file_path.

Definition fetch_nadlan_taxes_transactions_text (env : Env) (page : string)
    (dest : option Path) : Py World Path :=
  let url := "https://nadlan.taxes.gov.il/some_endpoint?page=" +:+ page in
  let dest := or_DATA_DIR dest in
  mkdir dest ;;
  let* r := requests_get env url in
  raise_for_status r ;;
  let file_path := path_join dest ("nadlan_taxes_page_" +:+ page +:+ ".html") in
  write_file_at file_path (text r) ;;
  ret file_path.

Definition fetch_hasadna_openmunicipality_air_text (env : Env) (city_code : string)
    (dest : option Path) : Py World Path :=
  let url := "https://municipaldata.hasadna.org.il/api/air_quality/" +:+ city_code in
  let dest := or_DATA_DIR dest in
  mkdir dest ;;
  let* r := requests_get env url in
  raise_for_status r ;;
  let file_path :=
    path_join dest ("hasadna_openmunicipality_air_" +:+ city_code +:+ ".json") in
  write_file_at file_path (text r) ;;
  ret file_path.

(** The part of [fetch_datagov_resource] that runs before [dest] is looked
    at. *)
Definition datagov_lookup (env : Env) (resource_id : string) : Py World JSON :=
  let info_url := "https://data.gov.il/api/3/action/resource_show?id=" +:+ resource_id in
  let* r := requests_get env info_url in
  raise_for_status r ;;
  let* info := response_json r in
  let* result := subscript info "result" in
  subscript result "url".

(** The call with the positional arguments, for a fetcher declared as [f(dest=None)]: a non-empty
    string survives [dest or DATA_DIR] and fails at [dest.mkdir]; an empty
    one is falsy and gives the default directory; a second argument is one
    too many. *)
Definition call_with_dest (f : option Path -> Py World Path) (args : list string)
  : World -> Called * World :=
  match args with
  | [] => called (f None)
  | [d] => if String.eqb d "" then called (f None) else fun w => (RaisedAttributeError, w)
  | _ => fun w => (Raised TypeError, w)
  end.

(** The call with the positional arguments, for a fetcher declared as [f(param, dest=None)] whose body
    has no effect before [dest.mkdir]. *)
Definition call_with_param (f : string -> option Path -> Py World Path)
    (args : list string) : World -> Called * World :=
  match args with
  | [x] => called (f x None)
  | [x; d] =>
      if String.eqb d "" then called (f x None) else fun w => (RaisedAttributeError, w)
  | _ => fun w => (Raised TypeError, w)
  end.

(** [fetch_nadlan_taxes_transactions(page=1, dest=None)] *)
Definition call_nadlan_taxes (env : Env) (args : list string) : World -> Called * World :=
  match args with
  | [] => called (fetch_nadlan_taxes_transactions env 1 None)
  | _ => call_with_param (fetch_nadlan_taxes_transactions_text env) args
  end.

(** [fetch_datagov_resource(resource_id, dest=None)]: the metadata lookup
    comes before [dest.mkdir]. *)
Definition call_datagov (env : Env) (args : list string) : World -> Called * World :=
  match args with
  | [x] => called (fetch_datagov_resource env x None)
  | [x; d] =>
      if String.eqb d "" then called (fetch_datagov_resource env x None)
      else fun w =>
        match datagov_lookup env x w with
        | (Ok _, w') => (RaisedAttributeError, w')
        | (Raise e, w') => (Raised e, w')
        end
  | _ => fun w => (Raised TypeError, w)
  end.

(** The keys of the [fetchers] dict, in order. *)
Definition registry : list string :=
  ["kaggle_zillow"; "kaggle_california"; "kaggle_ames"; "nadlan_gov"; "nadlan_taxes";
   "datagov"; "cbs"; "opentaba"; "c4c"; "askdata"; "hasadna_crime"; "hasadna_air"].

(** [fetchers.get(key)], as the function of the positional arguments. *)
Definition fetchers_get (env : Env) (key : string)
  : option (list string -> World -> Called * World) :=
  if String.eqb key "kaggle_zillow" then Some (call_with_dest (fetch_kaggle_zillow_prize env))
  else if String.eqb key "kaggle_california" then
    Some (call_with_dest (fetch_kaggle_california_housing env))
  else if String.eqb key "kaggle_ames" then Some (call_with_dest (fetch_kaggle_ames_iowa env))
  else if String.eqb key "nadlan_gov" then
    Some (call_with_param (fetch_nadlan_gov_transactions_text env))
  else if String.eqb key "nadlan_taxes" then Some (call_nadlan_taxes env)
  else if String.eqb key "datagov" then Some (call_datagov env)
  else if String.eqb key "cbs" then Some (call_with_param (fetch_cbs_table env))
  else if String.eqb key "opentaba" then Some (call_with_param (fetch_opentaba_plan env))
  else if String.eqb key "c4c" then
    Some (call_with_dest (fetch_citizens4citizens_projects env))
  else if String.eqb key "askdata" then Some (call_with_dest (fetch_askdata_housing_plans env))
  else if String.eqb key "hasadna_crime" then
    Some (call_with_param (fetch_hasadna_openpolice_crime env))
  else if String.eqb key "hasadna_air" then
    Some (call_with_param (fetch_hasadna_openmunicipality_air_text env))
  else None.

(** [str] of a list of plain strings, as [print] shows it. *)
Definition show_list (ks : list string) : string :=
  "[" +:+ String.concat ", " (map (fun k => "'" +:+ k +:+ "'") ks) +:+ "]".

(** [main()], with [sys.argv] as its argument. *)
Definition main (env : Env) (argv : list string) (c : Cli) : Exit * Cli :=
  if (length argv <? 2)%nat then
    (Returned,
     mkCli (world c) (stdout c ++ [PText ("Available fetchers: " +:+ show_list registry)]))
  else
    match fetchers_get env (nth 1 argv "") with
    | None =>
        (Returned,
         mkCli (world c)
               (stdout c ++ [PText ("Fetcher '" +:+ nth 1 argv "" +:+ "' not found.")]))
    | Some fn =>
        let args := drop 2 argv in
        match fn args (world c) with
        | (GavePath result, w) => (Returned, mkCli w (stdout c ++ [PPath result]))
        | (Raised e, w) => (Uncaught e, mkCli w (stdout c))
        | (RaisedAttributeError, w) => (UncaughtAttributeError, mkCli w (stdout c))
        end
    end.


End Fetchers.


(** * Object storage ([data_domain/lake/storage.py]) *)

Module Storage.

Abbreviation bytes := (list byte).

#[global] Instance byte_eq_dec : EqDecision byte := Byte.byte_eq_dec.

(** ** Configuration ([data_domain/utils/config.py]) *)

Definition MINIO_ENDPOINT : string := "localhost:9000".
Definition MINIO_ACCESS_KEY : string := "minioadmin".
Definition MINIO_SECRET_KEY : string := "minioadmin".
Definition MINIO_BUCKET : string := "data-lake".
Definition MINIO_SECURE : bool := false.

(** ** Tabular datasets *)

(** A cell: [None], a boolean, an integer, a string, or a float, which is
    either [mantissa * 2^exponent] or NaN. *)
Inductive Cell :=
  | CNull
  | CBool (b : bool)
  | CInt (n : Z)
  | CStr (s : string)
  | CFloat (mantissa exponent : Z)
  | CNaN.

#[global] Instance Cell_eq_dec : EqDecision Cell.
Proof. solve_decision. Defined.

(** Columns in order: a name and the cells of the column. *)
Abbreviation Table := (list (string * list Cell)).

(** A [pandas.DataFrame]: row labels and columns. *)
Record DataFrame := mkDataFrame { index : list Cell; columns : Table }.

Definition nrows (t : Table) : nat :=
  match t with
  | [] => 0%nat
  | (_, cells) :: _ => length cells
  end.

(** The default [RangeIndex(0, n)]. *)
Definition range_index (n : nat) : list Cell := map (fun i => CInt (Z.of_nat i)) (seq 0 n).

(** The columnar encoding is the library's: what the two functions need from
    it is an encoder and a decoder of tables, either of which may raise. *)
Record Codec := mkCodec {
  encode_table : Table -> Exn + bytes;
  decode_table : bytes -> Exn + Table
}.

(** ** [io.BytesIO] *)

Record BytesIO := mkBytesIO { buf : bytes; pos : nat }.

Definition BytesIO_new (initial : bytes) : BytesIO := mkBytesIO initial 0.

Definition bio_write (b : BytesIO) (data : bytes) : BytesIO :=
  mkBytesIO (take (pos b) (buf b) ++ data ++ drop (pos b + length data) (buf b))
            (pos b + length data).

Definition bio_seek (b : BytesIO) (offset : nat) : BytesIO := mkBytesIO (buf b) offset.

(** [buffer.getbuffer().nbytes] *)
Definition nbytes (b : BytesIO) : nat := length (buf b).

(** [buffer.read(n)]: at most [n] bytes from the current position. *)
Definition bio_read (b : BytesIO) (n : nat) : bytes := take n (drop (pos b) (buf b)).

(** ** An S3-compatible backend

    The store maps a bucket to its objects.  Every call made through the
    client is recorded, and [faults] schedules the failures of the backend:
    the call made when [n] calls have been recorded fails if [faults n] is an
    exception. *)

Inductive Call :=
  | CBucketExists (bucket : string)
  | CMakeBucket (bucket : string)
  | CPutObject (bucket key : string) (data : bytes) (length : nat) (content_type : string)
  | CGetObject (bucket key : string)
  | CRead (handle : nat)
  | CClose (handle : nat)
  | CReleaseConn (handle : nat).

#[global] Instance Call_eq_dec : EqDecision Call.
Proof. solve_decision. Defined.

Record Backend := mkBackend {
  buckets : gmap string (gmap string bytes);
  calls : list Call;
  faults : nat -> option Exn
}.

Definition record (c : Call) (st : Backend) : Backend :=
  mkBackend (buckets st) (calls st ++ [c]) (faults st).

Definition set_buckets (b : gmap string (gmap string bytes)) (st : Backend) : Backend :=
  mkBackend b (calls st) (faults st).

(** A call reaches the backend unless a fault is scheduled for it. *)
Definition backend_call {A} (c : Call) (k : Py Backend A) : Py Backend A := fun st =>
  match faults st (length (calls st)) with
  | Some e => (Raise e, record c st)
  | None => k (record c st)
  end.

Record Minio := mkMinio {
  endpoint : string;
  access_key : string;
  secret_key : string;
  secure : bool
}.

(** The body of an object being downloaded, with the handle of its
    connection. *)
Record HTTPResponse := mkHTTPResponse { handle : nat; body : bytes }.

Definition bucket_exists (client : Minio) (bucket : string) : Py Backend bool :=
  backend_call (CBucketExists bucket)
    (fun st => (Ok (bool_decide (is_Some (buckets st !! bucket))), st)).

Definition make_bucket (client : Minio) (bucket : string) : Py Backend unit :=
  backend_call (CMakeBucket bucket)
    (fun st => match buckets st !! bucket with
               | Some _ => (Raise (S3Error "BucketAlreadyOwnedByYou"), st)
               | None => (Ok tt, set_buckets (<[bucket := ∅]> (buckets st)) st)
               end).

(** [put_object] reads [length] bytes from the stream at its current
    position and refuses a stream that ends early. *)
Definition put_object (client : Minio) (bucket key : string) (data : BytesIO)
    (length : nat) (content_type : string) : Py Backend unit :=
  backend_call (CPutObject bucket key (bio_read data length) length content_type)
    (fun st =>
       if bool_decide (List.length (bio_read data length) < length)%nat
       then (Raise (IOError "stream having not enough data"), st)
       else match buckets st !! bucket with
            | None => (Raise (S3Error "NoSuchBucket"), st)
            | Some objs =>
                (Ok tt, set_buckets (<[bucket := <[key := bio_read data length]> objs]>
                                       (buckets st)) st)
            end).

Definition get_object (client : Minio) (bucket key : string) : Py Backend HTTPResponse :=
  fun st =>
    backend_call (CGetObject bucket key)
      (fun st' => match buckets st' !! bucket with
                  | None => (Raise (S3Error "NoSuchBucket"), st')
                  | Some objs =>
                      match objs !! key with
                      | None => (Raise (S3Error "NoSuchKey"), st')
                      | Some data => (Ok (mkHTTPResponse (length (calls st)) data), st')
                      end
                  end) st.

Definition response_read (r : HTTPResponse) : Py Backend bytes :=
  backend_call (CRead (handle r)) (ret (body r)).

Definition response_close (r : HTTPResponse) : Py Backend unit :=
  backend_call (CClose (handle r)) (ret tt).

Definition response_release_conn (r : HTTPResponse) : Py Backend unit :=
  backend_call (CReleaseConn (handle r)) (ret tt).

(** ** pandas *)

(** [df.to_parquet(buffer, index=False)]: the columns are written, the row
    labels are not. *)
Definition to_parquet (codec : Codec) (df : DataFrame) (buffer : BytesIO)
  : Py Backend BytesIO :=
  match encode_table codec (columns df) with
  | inl e => raise e
  | inr data => ret (bio_write buffer data)
  end.

(** [pd.read_parquet(buffer)]: a file written without row labels is read back
    with the default ones. *)
Definition read_parquet (codec : Codec) (buffer : BytesIO) : Py Backend DataFrame :=
  match decode_table codec (drop (pos buffer) (buf buffer)) with
  | inl e => raise e
  | inr t => ret (mkDataFrame (range_index (nrows t)) t)
  end.

(** ** The module's functions *)

(** [filename : Union[str, Path]] and [str(filename)] *)
Inductive Filename :=
  | FStr (s : string)
  | FPath (p : Path).

Definition str (filename : Filename) : string :=
  match filename with
  | FStr s => s
  | FPath p => str_of_path p
  end.

Definition get_minio_client : Minio :=
  mkMinio MINIO_ENDPOINT MINIO_ACCESS_KEY MINIO_SECRET_KEY MINIO_SECURE.

Definition ensure_bucket_exists (client : Minio) (bucket : string) : Py Backend unit :=
  let* found := bucket_exists client bucket in
  if negb found then make_bucket client bucket else ret tt.

Definition save_parquet (codec : Codec) (df : DataFrame) (filename : Filename)
  : Py Backend string :=
  let client := get_minio_client in
  ensure_bucket_exists client MINIO_BUCKET ;;
  let buffer := BytesIO_new [] in
  let* buffer := to_parquet codec df buffer in
  let buffer := bio_seek buffer 0 in
  put_object client MINIO_BUCKET (str filename) buffer (nbytes buffer)
             "application/octet-stream" ;;
  ret (str filename).

Definition load_parquet (codec : Codec) (filename : Filename) : Py Backend DataFrame :=
  let client := get_minio_client in
  let* response := get_object client MINIO_BUCKET (str filename) in
  let* data := response_read response in
  let buffer := BytesIO_new data in
  let* df := read_parquet codec buffer in
  response_close response ;;
  response_release_conn response ;;
  ret df.

(** The order of steps as the specification words it: serialize first, then
    ensure the bucket, then write. *)
Definition save_parquet_serialize_first (codec : Codec) (df : DataFrame)
    (filename : Filename) : Py Backend string :=
  let client := get_minio_client in
  let buffer := BytesIO_new [] in
  let* buffer := to_parquet codec df buffer in
  let buffer := bio_seek buffer 0 in
  ensure_bucket_exists client MINIO_BUCKET ;;
  put_object client MINIO_BUCKET (str filename) buffer (nbytes buffer)
             "application/octet-stream" ;;
  ret (str filename).

(** How often a connection handle was closed, and released. *)
Definition closes (h : nat) (cs : list Call) : nat :=
  length (List.filter (fun c => bool_decide (c = CClose h)) cs).
Definition releases (h : nat) (cs : list Call) : nat :=
  length (List.filter (fun c => bool_decide (c = CReleaseConn h)) cs).
Definition make_bucket_calls (b : string) (cs : list Call) : nat :=
  length (List.filter (fun c => bool_decide (c = CMakeBucket b)) cs).

(** ** Scenarios *)

(** A backend that never fails. *)
Definition no_faults (st : Backend) : Prop := forall n, faults st n = None.

(** A fresh backend: no bucket, no call made, no failure scheduled. *)
Definition fresh_backend : Backend := mkBackend ∅ [] (fun _ => None).

Definition has_bucket (st : Backend) (bucket : string) : bool :=
  bool_decide (is_Some (buckets st !! bucket)).

(** The backend after a successful [ensure_bucket_exists]. *)
Definition ensured_backend (st : Backend) (bucket : string) : Backend :=
  if has_bucket st bucket then record (CBucketExists bucket) st
  else set_buckets (<[bucket := ∅]> (buckets st))
         (record (CMakeBucket bucket) (record (CBucketExists bucket) st)).

(** A codec with a one-entry code book: it encodes [sample_table], decodes
    [sample_bytes], and raises on anything else. *)
Definition sample_table : Table := [("a", [CInt 1; CInt 2])].
Definition sample_bytes : bytes := [x50; x41; x52; x31].

Definition codebook_codec : Codec :=
  mkCodec
    (fun t => if decide (t = sample_table) then inr sample_bytes
              else inl (ValueError "unsupported table"))
    (fun b => if decide (b = sample_bytes) then inr sample_table
              else inl ArrowInvalid).

(** A dataset with row labels of its own. *)
Definition sample_frame : DataFrame :=
  mkDataFrame [CStr "x"; CStr "y"] sample_table.

(** Two datasets with a column of dtype [object], and what pyarrow does with
    them.  A column holding the integer 1 and the string a is refused by
    [to_parquet]: the column is taken for integers and the string cannot be
    converted ([ArrowInvalid]).  A column holding the integer 1 and [None]
    is written as an integer column with a missing value, which
    [pd.read_parquet] gives back as the floats 1.0 and NaN. *)
Definition mixed_table : Table := [("b", [CInt 1; CStr "a"])].
Definition mixed_frame : DataFrame := mkDataFrame [CInt 0; CInt 1] mixed_table.

Definition nullable_table : Table := [("a", [CInt 1; CNull])].
Definition nullable_frame : DataFrame := mkDataFrame [CInt 0; CInt 1] nullable_table.
Definition nullable_bytes : bytes := [x50; x41; x52; x31; x00].
Definition upcast_table : Table := [("a", [CFloat 1 0; CNaN])].

(** A code book with pyarrow's answers at these tables and at
    [sample_table]; what is not in the book is refused. *)
Definition pyarrow_codebook : Codec :=
  mkCodec
    (fun t => if decide (t = sample_table) then inr sample_bytes
              else if decide (t = nullable_table) then inr nullable_bytes
              else inl ArrowInvalid)
    (fun b => if decide (b = sample_bytes) then inr sample_table
              else if decide (b = nullable_bytes) then inr upcast_table
              else inl ArrowInvalid).

(** A store whose bucket holds an object that is not a columnar file. *)
Definition corrupt_backend : Backend :=
  mkBackend {[ MINIO_BUCKET := {[ "bad.parquet" := [x00] ]} ]} [] (fun _ => None).

(** The calls that only read from the store. *)
Definition is_read_call (c : Call) : bool :=
  match c with
  | CGetObject _ _ | CRead _ | CClose _ | CReleaseConn _ => true
  | _ => false
  end.

(** ** The command line ([main]) *)

(** What [main] hands to [print]: a line of text, or a dataset. *)
Inductive Printed :=
  | PText (s : string)
  | PFrame (df : DataFrame).

(** The process: the store behind the client and the standard output. *)
Record Cli := mkCli { backend : Backend; stdout : list Printed }.

Definition on_backend {A} (m : Py Backend A) : Py Cli A := fun c =>
  (fst (m (backend c)), mkCli (snd (m (backend c))) (stdout c)).

Definition print (p : Printed) : Py Cli unit := fun c =>
  (Ok tt, mkCli (backend c) (stdout c ++ [p])).

(** [pd.DataFrame({'example': [1, 2, 3]})] *)
Definition example_frame : DataFrame :=
  mkDataFrame (range_index 3) [("example", [CInt 1; CInt 2; CInt 3])].

Definition usage : string :=
  "Usage: python -m data_domain.lake.storage [save|load] filename".

(** [main()], with [sys.argv] as its argument. *)
Definition main (codec : Codec) (argv : list string) : Py Cli unit :=
  if (length argv <? 3)%nat then print (PText usage)
  else
    let cmd := nth 1 argv "" in
    let filename := nth 2 argv "" in
    if String.eqb cmd "save" then
      let df := example_frame in
      on_backend (save_parquet codec df (FStr filename)) ;;
      print (PText ("Saved " +:+ filename +:+ " to MinIO."))
    else if String.eqb cmd "load" then
      let* df := on_backend (load_parquet codec (FStr filename)) in
      print (PFrame df)
    else print (PText ("Unknown command: " +:+ cmd)).

End Storage.


(** * Properties *)

(** ** Strings and paths *)

Lemma has_char_append c s t :
  has_char c (s +:+ t) = has_char c s || has_char c t.
Proof.
  induction s as [|a s IH]; simpl; [done|].
  rewrite IH. by rewrite orb_assoc.
Qed.

Lemma split_no_sep c s : has_char c s = false -> split c s = [s].
Proof.
  induction s as [|a s IH]; simpl; [done|].
  intros H. apply orb_false_iff in H as [Ha Hs].
  rewrite Ha, (IH Hs). done.
Qed.

Lemma split_nonempty c s : split c s <> [].
Proof.
  destruct s as [|a s]; simpl; [done|].
  destruct (Ascii.eqb a c); [done|]. by destruct (split c s).
Qed.

Lemma split_append_sep c s t :
  split c (s +:+ String c t) = split c s ++ split c t.
Proof.
  induction s as [|a s IH]; simpl.
  - by rewrite Ascii.eqb_refl.
  - rewrite IH. destruct (Ascii.eqb a c); [done|].
    destruct (split c s) eqn:E; [by apply split_nonempty in E|done].
Qed.

Lemma last_app_nonempty {A} (l k : list A) d : k <> [] -> List.last (l ++ k) d = List.last k d.
Proof.
  intros Hk. induction l as [|x l IH]; simpl; [done|].
  destruct (l ++ k) eqn:E; [|exact IH].
  apply app_eq_nil in E as [_ ->]. done.
Qed.

Lemma split_last_append c s t :
  List.last (split c (s +:+ String c t)) "" = List.last (split c t) "".
Proof.
  rewrite split_append_sep. apply last_app_nonempty, split_nonempty.
Qed.

Lemma last_segment_no_slash s : has_char slash (last_segment s) = false.
Proof.
  unfold last_segment. induction s as [|a s IH]; simpl; [done|].
  destruct (Ascii.eqb a slash) eqn:Ea.
  - destruct (split slash s) eqn:E; [by apply split_nonempty in E|exact IH].
  - destruct (split slash s) as [|w ws] eqn:E; [by apply split_nonempty in E|].
    destruct ws; [|exact IH]. simpl in *. by rewrite Ea, IH.
Qed.

Lemma root_of_no_slash s : has_char slash s = false -> root_of s = "".
Proof.
  destruct s as [|a s]; simpl; [done|].
  intros H. apply orb_false_iff in H as [Ha _].
  rewrite Ha. destruct s as [|b [|c s]]; done.
Qed.

(** Joining a name without a separator appends exactly one component,
    unless the name is empty or a dot. *)
Lemma path_join_plain dest nm :
  has_char slash nm = false ->
  path_join dest nm =
    mkPath (root dest) (parts dest ++ (if keep_part nm then [nm] else [])).
Proof.
  intros H. unfold path_join, parse_parts.
  rewrite (root_of_no_slash _ H), (split_no_sep _ _ H). simpl.
  by destruct (keep_part nm).
Qed.

(** ** Formatting integers *)

Lemma string_of_uint_no_slash d :
  has_char slash (NilEmpty.string_of_uint d) = false.
Proof. induction d; simpl; done. Qed.

Lemma str_of_int_no_slash n : has_char slash (str_of_int n) = false.
Proof.
  unfold str_of_int, NilZero.string_of_int, NilZero.string_of_uint.
  destruct (Z.to_int n) as [d|d]; destruct d; simpl;
    try done; apply string_of_uint_no_slash.
Qed.

Lemma to_int_not_nil n : Z.to_int n <> Decimal.Pos Decimal.Nil /\ Z.to_int n <> Decimal.Neg Decimal.Nil.
Proof.
  assert (Hpos : forall p, Pos.to_uint p <> Decimal.Nil).
  { intros p H. pose proof (DecimalPos.Unsigned.of_to p) as E.
    rewrite H in E. discriminate. }
  destruct n as [|p|p]; simpl; split; try discriminate; intros H; injection H; apply Hpos.
Qed.

Lemma str_of_int_inj n m : str_of_int n = str_of_int m -> n = m.
Proof.
  unfold str_of_int. intros H.
  apply DecimalZ.to_int_inj.
  destruct (to_int_not_nil n) as [Hn1 Hn2], (to_int_not_nil m) as [Hm1 Hm2].
  pose proof (NilZero.isi _ Hn1 Hn2) as En.
  pose proof (NilZero.isi _ Hm1 Hm2) as Em.
  rewrite H in En. rewrite En in Em. by injection Em.
Qed.

Lemma append_length s t : String.length (s +:+ t) = (String.length s + String.length t)%nat.
Proof. induction s as [|a s IH]; simpl; [done|]. by rewrite IH. Qed.

Lemma append_inj_suffix s1 s2 t : s1 +:+ t = s2 +:+ t -> s1 = s2.
Proof.
  revert s2. induction s1 as [|a s1 IH]; intros [|b s2] H; simpl in *.
  - done.
  - apply (f_equal String.length) in H. simpl in H. rewrite !append_length in H.
    simpl in H. lia.
  - apply (f_equal String.length) in H. simpl in H. rewrite !append_length in H.
    simpl in H. lia.
  - injection H as -> H. f_equal. by apply IH.
Qed.

(** ** The filesystem *)

Lemma mkdir_walk_inr r pre todo (f f' : FS) :
  mkdir_walk r pre todo f = inr f' ->
  (forall p n, f !! p = Some n -> f' !! p = Some n) /\
  (forall p c, f' !! p = Some (File c) -> f !! p = Some (File c)) /\
  (todo <> [] -> f' !! mkPath r (pre ++ todo) = Some Dir).
Proof.
  revert pre f. induction todo as [|c rest IH]; intros pre f H; simpl in H.
  - injection H as <-. done.
  - destruct (f !! mkPath r (pre ++ [c])) as [[|data]|] eqn:E; [| done |].
    + destruct (IH _ _ H) as (Hk & Hf & Hd). split_and!; [done..|].
      intros _. destruct rest as [|c' rest].
      * simpl in H. injection H as <-. done.
      * rewrite <- app_assoc in Hd. by apply Hd.
    + destruct (IH _ _ H) as (Hk & Hf & Hd). split_and!.
      * intros p n Hp. apply Hk. rewrite lookup_insert_ne; [done|]. congruence.
      * intros p data Hp. apply Hf in Hp.
        destruct (decide (mkPath r (pre ++ [c]) = p)) as [<-|Hne].
        -- by rewrite lookup_insert_eq in Hp.
        -- by rewrite lookup_insert_ne in Hp.
      * intros _. destruct rest as [|c' rest].
        -- simpl in H. injection H as <-. by rewrite lookup_insert_eq.
        -- rewrite <- app_assoc in Hd. by apply Hd.
Qed.

Lemma mkdir_p_is_dir p (f f' : FS) : mkdir_p p f = inr f' -> is_dir f' p = true.
Proof.
  unfold mkdir_p, is_dir, node_at. intros H.
  destruct (mkdir_walk_inr _ _ _ _ _ H) as (_ & _ & Hd).
  destruct p as [r [|c ps]]; simpl in *; [done|].
  by rewrite Hd.
Qed.

Lemma mkdir_p_keeps_entries p (f f' : FS) q n :
  mkdir_p p f = inr f' -> f !! q = Some n -> f' !! q = Some n.
Proof. intros H. by apply (mkdir_walk_inr _ _ _ _ _ H). Qed.

Lemma mkdir_p_adds_no_file p (f f' : FS) q data :
  mkdir_p p f = inr f' -> f' !! q = Some (File data) -> f !! q = Some (File data).
Proof. intros H. by apply (mkdir_walk_inr _ _ _ _ _ H). Qed.

Lemma same_files_refl (f : FS) : same_files f f.
Proof. by intros q data. Qed.

Lemma mkdir_p_same_files p (f f' : FS) : mkdir_p p f = inr f' -> same_files f f'.
Proof.
  intros H q data. split.
  - by apply (mkdir_p_adds_no_file _ _ _ _ _ H).
  - by apply (mkdir_p_keeps_entries _ _ _ _ _ H).
Qed.

(** After a successful [mkdir] every ancestor on the way is a directory
    (parents are created), and running it again changes nothing (an
    existing directory is tolerated). *)
Lemma mkdir_walk_prefixes r pre todo (f f' : FS) k :
  mkdir_walk r pre todo f = inr f' ->
  (0 < k <= length todo)%nat ->
  f' !! mkPath r (pre ++ take k todo) = Some Dir.
Proof.
  revert pre f k. induction todo as [|c rest IH]; intros pre f k H Hk; simpl in *; [lia|].
  destruct k as [|k]; [lia|]. simpl.
  replace (pre ++ c :: take k rest) with ((pre ++ [c]) ++ take k rest)
    by by rewrite <- app_assoc.
  assert (Hc : f' !! mkPath r (pre ++ [c]) = Some Dir).
  { destruct (f !! mkPath r (pre ++ [c])) as [[|data]|] eqn:E; [| done |].
    - by apply (mkdir_walk_inr _ _ _ _ _ H).
    - apply (mkdir_walk_inr _ _ _ _ _ H). by rewrite lookup_insert_eq. }
  destruct k as [|k]; [by rewrite take_0, app_nil_r|].
  destruct (f !! mkPath r (pre ++ [c])) as [[|data]|] eqn:E; [| done |];
    eapply IH; try done; lia.
Qed.

Lemma mkdir_walk_all_dirs r pre todo (f : FS) :
  (forall k, (0 < k <= length todo)%nat ->
             f !! mkPath r (pre ++ take k todo) = Some Dir) ->
  mkdir_walk r pre todo f = inr f.
Proof.
  revert pre. induction todo as [|c rest IH]; intros pre H; simpl; [done|].
  pose proof (H 1%nat) as H1. simpl in H1. rewrite take_0 in H1.
  rewrite H1 by lia. apply IH.
  intros k Hk. rewrite <- app_assoc. apply (H (S k)). simpl. lia.
Qed.

Lemma mkdir_p_idempotent p (f f' : FS) : mkdir_p p f = inr f' -> mkdir_p p f' = inr f'.
Proof.
  unfold mkdir_p. intros H. apply mkdir_walk_all_dirs.
  intros k Hk. by apply (mkdir_walk_prefixes _ _ _ _ _ _ H).
Qed.

Lemma mkdir_p_parents p (f f' : FS) k :
  mkdir_p p f = inr f' ->
  (0 < k <= length (parts p))%nat ->
  f' !! mkPath (root p) (take k (parts p)) = Some Dir.
Proof. intros H Hk. exact (mkdir_walk_prefixes _ [] _ _ _ k H Hk). Qed.

(** Writing to a path that is a directory is refused. *)
Lemma write_file_not_dir p data (f f' : FS) :
  write_file p data f = inr f' -> is_dir f p = false.
Proof.
  unfold write_file. destruct (parts p) eqn:Ep; [done|].
  destruct (node_at f (parent p)) as [[|?]|]; [|done..].
  unfold is_dir, node_at. rewrite Ep.
  by destruct (f !! p) as [[|?]|].
Qed.

Lemma write_file_lookup p data (f f' : FS) :
  write_file p data f = inr f' -> f' = <[p := File data]> f.
Proof.
  unfold write_file. destruct (parts p); [done|].
  destruct (node_at f (parent p)) as [[|?]|]; [|done..].
  destruct (f !! p) as [[|?]|]; [done|..]; by intros [= <-].
Qed.

Lemma write_file_error p data (f : FS) e :
  write_file p data f = inl e ->
  e = IsADirectoryError \/ e = NotADirectoryError \/ exists m, e = FileNotFoundError m.
Proof.
  unfold write_file. destruct (parts p).
  { intros [= <-]. by left. }
  destruct (node_at f (parent p)) as [[|?]|].
  - destruct (f !! p) as [[|?]|]; try done. intros [= <-]. by left.
  - intros [= <-]. right. by left.
  - intros [= <-]. right. right. eauto.
Qed.

Lemma mkdir_walk_error r pre todo (f : FS) e :
  mkdir_walk r pre todo f = inl e -> e = FileExistsError \/ e = NotADirectoryError.
Proof.
  revert pre f. induction todo as [|c rest IH]; intros pre f; simpl; [done|].
  destruct (f !! _) as [[|?]|]; [by apply IH | | by apply IH].
  intros [= <-]. destruct rest; eauto.
Qed.

Lemma mkdir_p_error p (f : FS) e :
  mkdir_p p f = inl e -> e = FileExistsError \/ e = NotADirectoryError.
Proof. apply mkdir_walk_error. Qed.

(** ** Runs of the fetchers *)

Section FetcherRuns.
Import Fetchers.

Lemma drop_trace {A} (l k : list A) : drop (length l) (l ++ k) = k.
Proof. by rewrite drop_app_length. Qed.

(** What [raise_for_status] and the comparison with 200 decide. *)
Lemma raise_for_status_run r w :
  raise_for_status r w =
    (match status_failure KindStatus r with Some e => Raise e | None => Ok tt end, w).
Proof.
  unfold raise_for_status, status_failure, is_error_status.
  by destruct (_ && _).
Qed.

Lemma require_200_run r w :
  require_200 r w =
    (match status_failure KindUndocumented r with Some e => Raise e | None => Ok tt end, w).
Proof.
  unfold require_200, status_failure. by destruct (status_code r =? 200).
Qed.

(** Every run of a single-request fetcher, spelled out. *)
Lemma single_request_run env url check failure nm body dest w :
  (forall r w', check r w' =
     (match failure r with Some e => Raise e | None => Ok tt end, w')) ->
  single_request_fetch env url check nm body dest w =
    let d := or_DATA_DIR dest in
    let p := path_join d nm in
    match mkdir_p d (fs w) with
    | inl e => (Raise e, mkWorld (fs w) (trace w ++ [EvMkdir d]))
    | inr f1 =>
        match http env url with
        | Failed e => (Raise e, mkWorld f1 (trace w ++ [EvMkdir d; EvGet url]))
        | Responded r =>
            match failure r with
            | Some e => (Raise e, mkWorld f1 (trace w ++ [EvMkdir d; EvGet url]))
            | None =>
                match write_file p (body r) f1 with
                | inl e =>
                    (Raise e,
                     mkWorld f1 (trace w ++ [EvMkdir d; EvGet url; EvWrite p (body r)]))
                | inr f2 =>
                    (Ok p,
                     mkWorld f2 (trace w ++ [EvMkdir d; EvGet url; EvWrite p (body r)]))
                end
            end
        end
    end.
Proof.
  intros Hcheck.
  unfold single_request_fetch, bind, mkdir, requests_get, write_file_at, ret, log, set_fs.
  cbn zeta. simpl fs. simpl trace.
  destruct (mkdir_p (or_DATA_DIR dest) (fs w)) as [e|f1]; [done|]. simpl.
  destruct (http env url) as [r|e]; [|by rewrite <- app_assoc].
  rewrite Hcheck. destruct (failure r) as [e|]; [by rewrite <- app_assoc|].
  simpl. destruct (write_file _ _ f1) as [e|f2]; simpl; by rewrite <- !app_assoc.
Qed.

(** Each of the eight is an instance of the common shape. *)
Lemma invoke_single_request env i dest url nm :
  request_url i = Some url -> file_name i = Some nm ->
  invoke env i dest =
    single_request_fetch env url
      (match kind i with KindUndocumented => require_200 | _ => raise_for_status end)
      nm (payload i) dest.
Proof. destruct i; simpl; intros [= <-] [= <-]; reflexivity. Qed.

Lemma check_run i r w :
  (match kind i with KindUndocumented => require_200 | _ => raise_for_status end) r w =
    (match status_failure (kind i) r with Some e => Raise e | None => Ok tt end, w).
Proof.
  destruct (kind i); first [apply require_200_run | apply raise_for_status_run].
Qed.

(** Every run of a Kaggle-backed fetcher, spelled out. *)
Lemma invoke_kaggle_run env i dest argv w :
  command_line i dest = Some argv ->
  invoke env i dest w =
    let d := or_DATA_DIR dest in
    match mkdir_p d (fs w) with
    | inl e => (Raise e, mkWorld (fs w) (trace w ++ [EvMkdir d]))
    | inr f1 =>
        let w2 := mkWorld (run_process env argv f1).2 (trace w ++ [EvMkdir d; EvRun argv]) in
        if (run_process env argv f1).1 =? 0 then
          match glob_zip d (run_process env argv f1).2 with
          | [] => (Raise (FileNotFoundError "No zip file found after Kaggle download."), w2)
          | z :: _ => (Ok z, w2)
          end
        else (Raise (CalledProcessError (run_process env argv f1).1), w2)
    end.
Proof.
  intros Hcmd.
  destruct i; simpl in Hcmd; try discriminate; injection Hcmd as <-; simpl;
    unfold fetch_kaggle_zillow_prize, fetch_kaggle_california_housing,
           fetch_kaggle_ames_iowa, fetch_kaggle_dataset, fetch_kaggle_competition,
           bind, mkdir, subprocess_run, glob, ret, raise, log, set_fs;
    cbn zeta; simpl fs; simpl trace;
    (destruct (mkdir_p (or_DATA_DIR dest) (fs w)) as [e|f1]; [done|]); simpl;
    (destruct (run_process env _ f1) as [code f2]); simpl;
    rewrite <- ?app_assoc; simpl;
    (destruct (code =? 0); simpl; [|done]);
    by destruct (glob_zip _ f2).
Qed.

(** Every run of [fetch_datagov_resource], spelled out. *)
Lemma datagov_run env rid dest w :
  fetch_datagov_resource env rid dest w =
    let info_url := "https://data.gov.il/api/3/action/resource_show?id=" +:+ rid in
    let d := or_DATA_DIR dest in
    let t1 := trace w ++ [EvGet info_url] in
    match http env info_url with
    | Failed e => (Raise e, mkWorld (fs w) t1)
    | Responded r =>
        match download_url r with
        | inl e => (Raise e, mkWorld (fs w) t1)
        | inr j =>
            match mkdir_p d (fs w) with
            | inl e => (Raise e, mkWorld (fs w) (t1 ++ [EvMkdir d]))
            | inr f1 =>
                match j with
                | JStr url =>
                    let p := path_join d (last_segment url) in
                    let t2 := t1 ++ [EvMkdir d; EvGet url] in
                    match http env url with
                    | Failed e => (Raise e, mkWorld f1 t2)
                    | Responded r2 =>
                        match status_failure KindDatagov r2 with
                        | Some e => (Raise e, mkWorld f1 t2)
                        | None =>
                            match write_file p (content r2) f1 with
                            | inl e => (Raise e, mkWorld f1 (t2 ++ [EvWrite p (content r2)]))
                            | inr f2 => (Ok p, mkWorld f2 (t2 ++ [EvWrite p (content r2)]))
                            end
                        end
                    end
                | _ => (Raise (ValueError "Invalid URL"), mkWorld f1 (t1 ++ [EvMkdir d]))
                end
            end
        end
    end.
Proof.
  unfold fetch_datagov_resource, download_url.
  unfold bind at 1. unfold requests_get at 1. unfold log; simpl fs; simpl trace.
  cbn zeta.
  destruct (http env _) as [r|e]; [|done].
  unfold bind at 1. rewrite raise_for_status_run.
  change (status_failure KindDatagov r) with (status_failure KindStatus r).
  destruct (status_failure KindStatus r) as [e|]; [done|].
  unfold bind at 1. unfold response_json.
  destruct (json r) as [info|]; [|done]. unfold ret at 1.
  unfold bind at 1.
  destruct info as [| | | |?|items]; try done. unfold subscript at 1.
  destruct (dict_get "result" items) as [result|]; [|done]. unfold ret at 1.
  unfold bind at 1.
  destruct result as [| | | |?|items']; try done. unfold subscript at 1.
  destruct (dict_get "url" items') as [u|]; [|done]. unfold ret at 1.
  unfold bind at 1. unfold mkdir, log, set_fs; simpl fs; simpl trace.
  destruct (mkdir_p (or_DATA_DIR dest) (fs w)) as [e|f1]; [done|].
  unfold bind at 1.
  destruct u as [| | |url| |]; try done. unfold as_url, ret at 1.
  unfold bind at 1. unfold requests_get, log; simpl fs; simpl trace.
  rewrite <- !app_assoc. simpl.
  destruct (http env url) as [r2|e]; [|done].
  unfold bind at 1. rewrite raise_for_status_run.
  unfold status_failure. destruct (is_error_status (status_code r2)); [done|].
  unfold bind, write_file_at, ret, log, set_fs; simpl fs; simpl trace.
  rewrite <- !app_assoc. simpl.
  by destruct (write_file _ _ f1).
Qed.

End FetcherRuns.

(** ** Requests per invocation *)

Section Requests.
Import Fetchers.

Lemma single_request_shape i :
  kind i = KindStatus \/ kind i = KindUndocumented ->
  exists url nm, request_url i = Some url /\ file_name i = Some nm.
Proof. destruct i; simpl; intros [?|?]; try discriminate; eauto. Qed.

Lemma kaggle_shape i dest :
  kind i = KindKaggle -> exists argv, command_line i dest = Some argv.
Proof. destruct i; simpl; intros ?; try discriminate; eauto. Qed.

(** A run of a single-request fetcher, by its kind. *)
Lemma invoke_single_run env i dest url nm w :
  request_url i = Some url -> file_name i = Some nm ->
  invoke env i dest w =
    let d := or_DATA_DIR dest in
    let p := path_join d nm in
    match mkdir_p d (fs w) with
    | inl e => (Raise e, mkWorld (fs w) (trace w ++ [EvMkdir d]))
    | inr f1 =>
        match http env url with
        | Failed e => (Raise e, mkWorld f1 (trace w ++ [EvMkdir d; EvGet url]))
        | Responded r =>
            match status_failure (kind i) r with
            | Some e => (Raise e, mkWorld f1 (trace w ++ [EvMkdir d; EvGet url]))
            | None =>
                match write_file p (payload i r) f1 with
                | inl e =>
                    (Raise e,
                     mkWorld f1 (trace w ++ [EvMkdir d; EvGet url; EvWrite p (payload i r)]))
                | inr f2 =>
                    (Ok p,
                     mkWorld f2 (trace w ++ [EvMkdir d; EvGet url; EvWrite p (payload i r)]))
                end
            end
        end
    end.
Proof.
  intros Hu Hn. rewrite (invoke_single_request env i dest url nm Hu Hn).
  apply single_request_run. intros r w'. apply check_run.
Qed.

Ltac run_cases :=
  cbn zeta; repeat case_match; simpl in *;
  rewrite <- ?app_assoc, ?drop_trace; simpl;
  try done; try (repeat split; first [done | lia]).

(** C2 (counterexample): one call of [fetch_datagov_resource] against a
    portal that answers both requests issues two network requests, not one. *)
Lemma datagov_issues_two_requests :
  requests_issued
    (invoke (datagov_env "https://x.org/files/a.csv") (Datagov "r1") None)
    empty_world = 2%nat /\
  requests_issued
    (invoke (datagov_env "https://x.org/files/a.csv") (Datagov "r1") None)
    empty_world <> 1%nat.
Proof. by vm_compute. Qed.

(** C2 (amended): a Kaggle-backed fetcher issues no network request and runs
    the external command once; a single-request fetcher issues one request;
    in both cases nothing is issued when the destination directory cannot be
    created.  [fetch_datagov_resource] issues the metadata lookup and, when
    that yields a URL and the directory can be created, a second request for
    the download: two requests in every successful call. *)
Theorem requests_per_invocation env i dest w :
  let m := invoke env i dest in
  match kind i with
  | KindKaggle =>
      requests_issued m w = 0%nat /\
      processes_run m w = (if mkdir_succeeds dest w then 1 else 0)%nat
  | KindStatus | KindUndocumented =>
      requests_issued m w = (if mkdir_succeeds dest w then 1 else 0)%nat /\
      processes_run m w = 0%nat
  | KindDatagov =>
      processes_run m w = 0%nat /\
      requests_issued m w =
        match option_map (http env) (request_url i) with
        | Some (Responded r) =>
            match download_url r with
            | inr (JStr _) => if mkdir_succeeds dest w then 2 else 1
            | _ => 1
            end
        | _ => 1
        end%nat /\
      (if is_ok (m w).1 then requests_issued m w = 2%nat
       else (requests_issued m w <= 2)%nat)
  end.
Proof.
  intros m. subst m. destruct (kind i) eqn:K.
  - destruct (kaggle_shape i dest K) as [argv Hc].
    unfold requests_issued, processes_run, events, mkdir_succeeds.
    rewrite (invoke_kaggle_run env i dest argv w Hc). run_cases.
  - destruct (single_request_shape i (or_introl K)) as (url & nm & Hu & Hn).
    unfold requests_issued, processes_run, events, mkdir_succeeds.
    rewrite (invoke_single_run env i dest url nm w Hu Hn). run_cases.
  - destruct (single_request_shape i (or_intror K)) as (url & nm & Hu & Hn).
    unfold requests_issued, processes_run, events, mkdir_succeeds.
    rewrite (invoke_single_run env i dest url nm w Hu Hn). run_cases.
  - destruct i; try discriminate. simpl invoke. simpl request_url. simpl option_map.
    unfold requests_issued, processes_run, events, mkdir_succeeds.
    rewrite datagov_run. run_cases.
Qed.

End Requests.

(** ** Response statuses *)

Section Statuses.
Import Fetchers.

Ltac run_cases :=
  cbn zeta; repeat case_match; simpl in *;
  rewrite <- ?app_assoc, ?drop_trace; simpl;
  try done; try (repeat split; first [done | lia]).




(** X3: the download request of [fetch_datagov_resource] is checked the
    same way: an error status there is raised after two requests, with
    nothing written. *)
Lemma datagov_download_error_status env rid dest w r1 u r2 :
  http env ("https://data.gov.il/api/3/action/resource_show?id=" +:+ rid) = Responded r1 ->
  download_url r1 = inr (JStr u) ->
  mkdir_succeeds dest w = true ->
  http env u = Responded r2 ->
  is_error_status (status_code r2) = true ->
  let m := fetch_datagov_resource env rid dest in
  (m w).1 = Raise (HTTPError (status_code r2)) /\
  requests_issued m w = 2%nat /\
  writes_issued m w = 0%nat /\
  same_files (fs w) (fs (m w).2).
Proof.
  intros H1 Hd Hm H2 He m; subst m. unfold mkdir_succeeds in Hm.
  unfold requests_issued, writes_issued, events.
  rewrite datagov_run. cbn zeta. rewrite H1, Hd.
  destruct (mkdir_p (or_DATA_DIR dest) (fs w)) as [?|f1] eqn:Em; [done|].
  rewrite H2. unfold status_failure. rewrite He. simpl.
  rewrite <- app_assoc, drop_trace. simpl. split_and!; try done.
  by apply (mkdir_p_same_files _ _ _ Em).
Qed.

(** C8: for the two undocumented-endpoint fetchers, a response whose status
    is not exactly 200, a redirect included, makes the call fail with the
    generic runtime error, which is not the HTTP-status error; nothing is
    written and no file changes. *)
Theorem undocumented_non_200 env i dest w url r :
  kind i = KindUndocumented ->
  request_url i = Some url ->
  mkdir_succeeds dest w = true ->
  http env url = Responded r ->
  status_code r <> 200 ->
  let m := invoke env i dest in
  (m w).1 = Raise (RuntimeError "API endpoint not available or has changed.") /\
  (forall s, (m w).1 <> Raise (HTTPError s)) /\
  requests_issued m w = 1%nat /\
  writes_issued m w = 0%nat /\
  same_files (fs w) (fs (m w).2).
Proof.
  intros K Hu Hd Hr Hs m; subst m.
  destruct (single_request_shape i (or_intror K)) as (url' & nm & Hu' & Hn).
  rewrite Hu in Hu'. injection Hu' as <-. unfold mkdir_succeeds in Hd.
  unfold requests_issued, writes_issued, events.
  rewrite (invoke_single_run env i dest url nm w Hu Hn), K, Hr. cbn zeta.
  destruct (mkdir_p (or_DATA_DIR dest) (fs w)) as [?|f1] eqn:Em; [done|].
  unfold status_failure.
  destruct (status_code r =? 200) eqn:E; [apply Z.eqb_eq in E; done|]. simpl.
  rewrite drop_trace. simpl. split_and!; try done.
  by apply (mkdir_p_same_files _ _ _ Em).
Qed.

Lemma undocumented_non_200_witness :
  let env := constant_env (plain_response 302 "moved") 0 in
  let m := invoke env C4c None in
  (m empty_world).1 = Raise (RuntimeError "API endpoint not available or has changed.") /\
  (forall s, (m empty_world).1 <> Raise (HTTPError s)) /\
  requests_issued m empty_world = 1%nat /\
  writes_issued m empty_world = 0%nat /\
  same_files (fs empty_world) (fs (m empty_world).2).
Proof.
  apply (undocumented_non_200
           (constant_env (plain_response 302 "moved") 0) C4c None empty_world
           "https://c4c.org.il/api/projects" (plain_response 302 "moved"));
    [reflexivity | reflexivity | reflexivity | reflexivity | discriminate].
Defined.

End Statuses.

(** ** The destination directory *)

Section Directory.
Import Fetchers.

(** C10 (counterexample): when the metadata lookup of
    [fetch_datagov_resource] is answered with status 404 the call fails with
    the HTTP-status error and the destination directory has not been
    created: the request went out before any [mkdir]. *)
Lemma datagov_fails_before_mkdir :
  let run :=
    invoke (constant_env (plain_response 404 "not found") 0) (Datagov "r1") None
           empty_world in
  run.1 = Raise (HTTPError 404) /\
  is_dir (fs run.2) DATA_DIR = false /\
  trace run.2 = [EvGet "https://data.gov.il/api/3/action/resource_show?id=r1"].
Proof. by vm_compute. Qed.

(** C10 (amended): creating the destination directory creates its parents
    and tolerates a directory that is already there.  Every fetcher other
    than [fetch_datagov_resource] does it as its first effect, before the
    request or the subprocess; when such a call then fails on the response
    status, the directory exists, nothing was written and no file changed.
    [fetch_datagov_resource] starts with its metadata request and creates
    the directory only afterwards: a status failure of the first request
    leaves the filesystem untouched, one of the second request leaves the
    directory behind. *)
Theorem directory_before_request env i dest w :
  let m := invoke env i dest in
  let d := or_DATA_DIR dest in
  (forall f1, mkdir_p d (fs w) = inr f1 ->
     mkdir_p d f1 = inr f1 /\
     forall k, (0 < k <= length (parts d))%nat ->
               f1 !! mkPath (root d) (take k (parts d)) = Some Dir) /\
  match kind i with
  | KindDatagov =>
      head (events m w) = option_map EvGet (request_url i) /\
      (forall e, (m w).1 = Raise e -> is_status_error e = true ->
         writes_issued m w = 0%nat /\ same_files (fs w) (fs (m w).2) /\
         if (requests_issued m w =? 2)%nat
         then is_dir (fs (m w).2) d = true
         else fs (m w).2 = fs w)
  | _ =>
      head (events m w) = Some (EvMkdir d) /\
      (forall e, (m w).1 = Raise e -> is_status_error e = true ->
         is_dir (fs (m w).2) d = true /\
         writes_issued m w = 0%nat /\ same_files (fs w) (fs (m w).2))
  end.
Proof.
  intros m d; subst m d. split.
  { intros f1 Em. split; [by apply (mkdir_p_idempotent _ _ _ Em)|].
    intros k Hk. by apply (mkdir_p_parents _ _ _ _ Em). }
  assert (Hsingle : forall url nm,
    request_url i = Some url -> file_name i = Some nm ->
    head (events (invoke env i dest) w) = Some (EvMkdir (or_DATA_DIR dest)) /\
    (forall e, (invoke env i dest w).1 = Raise e -> is_status_error e = true ->
       is_dir (fs (invoke env i dest w).2) (or_DATA_DIR dest) = true /\
       writes_issued (invoke env i dest) w = 0%nat /\
       same_files (fs w) (fs (invoke env i dest w).2))).
  { intros url nm Hu Hn. unfold writes_issued, events.
    rewrite (invoke_single_run env i dest url nm w Hu Hn). cbn zeta.
    destruct (mkdir_p (or_DATA_DIR dest) (fs w)) as [e'|f1] eqn:Em; simpl.
    { rewrite drop_trace. split; [done|]. intros e [= <-] He.
      by destruct (mkdir_p_error _ _ _ Em) as [->| ->]. }
    pose proof (mkdir_p_is_dir _ _ _ Em) as Hdir.
    pose proof (mkdir_p_same_files _ _ _ Em) as Hsame.
    destruct (http env url) as [r|e']; simpl.
    2:{ rewrite drop_trace. done. }
    destruct (status_failure (kind i) r) as [e'|]; simpl.
    { rewrite drop_trace. done. }
    destruct (write_file _ _ f1) as [e'|f2] eqn:Ew; simpl; rewrite drop_trace;
      (split; [done|]); intros e He Hs; [|done].
    injection He as <-.
    destruct (write_file_error _ _ _ _ Ew) as [->|[->|[? ->]]]; done. }
  destruct (kind i) eqn:K.
  - destruct (kaggle_shape i dest K) as [argv Hc].
    unfold writes_issued, events.
    rewrite (invoke_kaggle_run env i dest argv w Hc). cbn zeta.
    destruct (mkdir_p (or_DATA_DIR dest) (fs w)) as [e'|f1] eqn:Em; simpl.
    { rewrite drop_trace. split; [done|]. intros e [= <-] He.
      by destruct (mkdir_p_error _ _ _ Em) as [->| ->]. }
    destruct (_ =? 0); [destruct (glob_zip _ _)|]; simpl; rewrite drop_trace;
      (split; [done|]); by intros e [= <-] He.
  - destruct (single_request_shape i (or_introl K)) as (url & nm & Hu & Hn). eauto.
  - destruct (single_request_shape i (or_intror K)) as (url & nm & Hu & Hn). eauto.
  - destruct i; try discriminate. simpl invoke. simpl request_url. simpl option_map.
    unfold requests_issued, writes_issued, events.
    rewrite datagov_run. cbn zeta.
    destruct (http env _) as [r|e']; simpl.
    2:{ rewrite drop_trace. split; [done|]. intros e _ _. simpl.
        split_and!; try done; apply same_files_refl. }
    destruct (download_url r) as [e'|j]; simpl.
    { rewrite drop_trace. split; [done|]. intros e _ _. simpl.
      split_and!; try done; apply same_files_refl. }
    destruct (mkdir_p (or_DATA_DIR dest) (fs w)) as [e'|f1] eqn:Em; simpl.
    { rewrite <- app_assoc, drop_trace. split; [done|]. intros e [= <-] He.
      by destruct (mkdir_p_error _ _ _ Em) as [->| ->]. }
    pose proof (mkdir_p_is_dir _ _ _ Em) as Hdir.
    pose proof (mkdir_p_same_files _ _ _ Em) as Hsame.
    destruct j as [| | |url| |]; simpl;
      try (rewrite <- app_assoc, drop_trace; split; [done|]; by intros e [= <-] He).
    destruct (http env url) as [r2|e']; simpl.
    2:{ rewrite <- app_assoc, drop_trace. done. }
    destruct (is_error_status (status_code r2)); simpl.
    { rewrite <- app_assoc, drop_trace. done. }
    destruct (write_file _ _ f1) as [e'|f2] eqn:Ew; simpl;
      rewrite <- !app_assoc, drop_trace; (split; [done|]); intros e He Hs; [|done].
    injection He as <-.
    destruct (write_file_error _ _ _ _ Ew) as [->|[->|[? ->]]]; done.
Qed.

Lemma directory_before_request_witness :
  let m := invoke (constant_env (plain_response 404 "not found") 0) (NadlanGov 2023) None in
  head (events m empty_world) = Some (EvMkdir DATA_DIR) /\
  (m empty_world).1 = Raise (HTTPError 404) /\
  is_dir (fs (m empty_world).2) DATA_DIR = true /\
  writes_issued m empty_world = 0%nat /\
  same_files (fs empty_world) (fs (m empty_world).2).
Proof.
  destruct (directory_before_request
              (constant_env (plain_response 404 "not found") 0)
              (NadlanGov 2023) None empty_world) as [_ [H1 H2]].
  split; [exact H1|]. split; [reflexivity|].
  exact (H2 (HTTPError 404) eq_refl eq_refl).
Defined.

End Directory.

(** ** The Kaggle-backed fetchers *)

Section Kaggle.
Import Fetchers.

Lemma glob_zip_spec d (f : FS) p : In p (glob_zip d f) <-> zip_in d f p.
Proof.
  unfold glob_zip, zip_in. rewrite filter_In, andb_true_iff, bool_decide_eq_true.
  destruct (is_dir f d); simpl.
  - rewrite <- list_elem_of_In, list_elem_of_fmap. split.
    + intros [([q n] & -> & Hq) [[Hp Hd] Hz]]. apply elem_of_map_to_list in Hq.
      simpl in *. eauto 10.
    + intros (_ & [n Hn] & Hp & Hd & Hz). split; [|done].
      exists (p, n). split; [done|]. by apply elem_of_map_to_list.
  - split; [by intros [[] _]|by intros [? _]].
Qed.

Lemma glob_zip_nil d (f : FS) : glob_zip d f = [] <-> ~ exists p, zip_in d f p.
Proof.
  split.
  - intros E [p Hp]. apply glob_zip_spec in Hp. by rewrite E in Hp.
  - intros H. destruct (glob_zip d f) as [|p l] eqn:E; [done|].
    exfalso. apply H. exists p. apply glob_zip_spec. rewrite E. by left.
Qed.

(** C9: once the destination directory is there, a Kaggle-backed fetcher
    runs the external tool.  A non-zero exit status propagates as the tool's
    failure.  After exit status 0 the call fails with the file-not-found
    error exactly when the directory holds no entry matching [*.zip], and
    otherwise returns the path of such an entry. *)
Theorem kaggle_outcomes env i dest w argv f1 :
  command_line i dest = Some argv ->
  mkdir_p (or_DATA_DIR dest) (fs w) = inr f1 ->
  let d := or_DATA_DIR dest in
  let code := (run_process env argv f1).1 in
  let f2 := (run_process env argv f1).2 in
  let m := invoke env i dest in
  processes_run m w = 1%nat /\
  (code <> 0 -> (m w).1 = Raise (CalledProcessError code)) /\
  (code = 0 ->
     ((m w).1 = Raise (FileNotFoundError "No zip file found after Kaggle download.")
      <-> ~ exists p, zip_in d f2 p) /\
     ((exists p, zip_in d f2 p) -> exists p, (m w).1 = Ok p /\ zip_in d f2 p)).
Proof.
  intros Hc Em d code f2 m; subst d code f2 m.
  unfold processes_run, events.
  rewrite (invoke_kaggle_run env i dest argv w Hc). cbn zeta. rewrite Em.
  destruct (run_process env argv f1) as [code f2]; simpl.
  destruct (code =? 0) eqn:E.
  - apply Z.eqb_eq in E as ->.
    destruct (glob_zip (or_DATA_DIR dest) f2) as [|z zs] eqn:Eg; simpl;
      rewrite drop_trace; simpl; (split; [done|]); (split; [done|]); intros _.
    + apply glob_zip_nil in Eg. split; [done|]. by intros H.
    + assert (Hz : zip_in (or_DATA_DIR dest) f2 z).
      { apply glob_zip_spec. rewrite Eg. by left. }
      split; [|eauto]. split; [done|]. intros H. exfalso. eauto.
  - apply Z.eqb_neq in E. simpl. rewrite drop_trace. simpl. done.
Qed.

Lemma kaggle_outcomes_witness :
  let m := invoke archive_env KaggleZillow None in
  let argv := ["kaggle"; "competitions"; "download"; "-c"; "zillow-prize-1";
               "-p"; "data_raw"] in
  let f1 : FS := {[ DATA_DIR := Dir ]} in
  let code := (run_process archive_env argv f1).1 in
  let f2 := (run_process archive_env argv f1).2 in
  processes_run m empty_world = 1%nat /\
  (code <> 0 -> (m empty_world).1 = Raise (CalledProcessError code)) /\
  (code = 0 ->
     ((m empty_world).1 =
        Raise (FileNotFoundError "No zip file found after Kaggle download.")
      <-> ~ exists p, zip_in DATA_DIR f2 p) /\
     ((exists p, zip_in DATA_DIR f2 p) ->
      exists p, (m empty_world).1 = Ok p /\ zip_in DATA_DIR f2 p)).
Proof.
  apply (kaggle_outcomes archive_env KaggleZillow None empty_world
           ["kaggle"; "competitions"; "download"; "-c"; "zillow-prize-1";
            "-p"; "data_raw"]
           {[ DATA_DIR := Dir ]}); reflexivity.
Defined.

(** In that scenario the tool leaves an archive behind, and the call
    returns its path. *)
Lemma kaggle_archive_returned :
  (invoke archive_env KaggleZillow None empty_world).1
    = Ok (mkPath "" ["data_raw"; "data.zip"]).
Proof. by vm_compute. Qed.

End Kaggle.

(** ** Output paths *)

Section OutputPaths.
Import Fetchers.

Lemma append_inj_prefix p s1 s2 : p +:+ s1 = p +:+ s2 -> s1 = s2.
Proof. induction p as [|a p IH]; simpl; [done|]. intros [= H]. by apply IH. Qed.

(** [fetch_cbs_table] names its file after the last segment of the table
    id. *)
Lemma cbs_file_name t : file_name (Cbs t) = Some (last_segment t).
Proof.
  unfold file_name, last_segment. f_equal.
  apply (split_last_append slash "https://www.cbs.gov.il/he/publications/doclib" t).
Qed.

Lemma last_segment_plain s : has_char slash s = false -> last_segment s = s.
Proof. intros H. unfold last_segment. by rewrite (split_no_sep _ _ H). Qed.

Lemma file_name_separator_free i nm :
  separator_free i = true -> file_name i = Some nm -> has_char slash nm = false.
Proof.
  destruct i; try discriminate; intros Hs; try rewrite cbs_file_name;
    intros [= <-]; try apply last_segment_no_slash;
    rewrite ?has_char_append, ?str_of_int_no_slash; try reflexivity;
    simpl in Hs; apply negb_true_iff in Hs; by rewrite Hs.
Qed.

Lemma file_name_inj i j nm :
  same_fetcher i j = true ->
  separator_free i = true -> separator_free j = true ->
  file_name i = Some nm -> file_name j = Some nm -> i = j.
Proof.
  destruct i, j; try discriminate; intros _ Hi Hj; try done;
    try rewrite !cbs_file_name; intros [= <-] [= H]; f_equal; simpl in Hi, Hj.
  - apply append_inj_prefix, append_inj_suffix, str_of_int_inj in H. done.
  - apply append_inj_prefix, append_inj_suffix, str_of_int_inj in H. done.
  - apply negb_true_iff in Hi, Hj.
    by rewrite !last_segment_plain in H.
  - apply append_inj_prefix, append_inj_suffix in H. done.
  - apply append_inj_prefix, append_inj_suffix in H. done.
  - apply append_inj_prefix, append_inj_suffix, str_of_int_inj in H. done.
Qed.

(** What a successful single-request call tells about its run. *)
Lemma invoke_single_ok env i dest url nm w p :
  request_url i = Some url -> file_name i = Some nm ->
  (invoke env i dest w).1 = Ok p ->
  p = path_join (or_DATA_DIR dest) nm /\
  exists f1 f2 data,
    mkdir_p (or_DATA_DIR dest) (fs w) = inr f1 /\ write_file p data f1 = inr f2.
Proof.
  intros Hu Hn. rewrite (invoke_single_run env i dest url nm w Hu Hn). cbn zeta.
  destruct (mkdir_p _ _) as [?|f1]; [done|].
  destruct (http env url) as [r|?]; [|done].
  destruct (status_failure _ r); [done|].
  destruct (write_file _ _ f1) as [?|f2] eqn:Ew; [done|].
  simpl. intros [= <-]. eauto 10.
Qed.

(** A successful call with a separator-free name wrote directly into the
    destination directory. *)
Lemma invoke_single_ok_plain env i dest url nm w p :
  request_url i = Some url -> file_name i = Some nm ->
  has_char slash nm = false ->
  (invoke env i dest w).1 = Ok p ->
  p = mkPath (root (or_DATA_DIR dest)) (parts (or_DATA_DIR dest) ++ [nm]).
Proof.
  intros Hu Hn Hs Hok.
  destruct (invoke_single_ok _ _ _ _ _ _ _ Hu Hn Hok) as (-> & f1 & f2 & data & Em & Ew).
  rewrite (path_join_plain _ _ Hs) in *.
  destruct (keep_part nm); [done|]. exfalso.
  rewrite app_nil_r in Ew.
  apply write_file_not_dir in Ew. apply mkdir_p_is_dir in Em.
  destruct (or_DATA_DIR dest) as [r ps]. simpl in *. congruence.
Qed.

(** C3 (counterexample): two different table ids that end in the same
    segment are stored under the same path. *)
Lemma cbs_tables_collide :
  let env := constant_env (plain_response 200 "table") 0 in
  (invoke env (Cbs "shnaton/2022/06_01.xlsx") None empty_world).1
    = Ok (mkPath "" ["data_raw"; "06_01.xlsx"]) /\
  (invoke env (Cbs "shnaton/2023/06_01.xlsx") None empty_world).1
    = Ok (mkPath "" ["data_raw"; "06_01.xlsx"]) /\
  Cbs "shnaton/2022/06_01.xlsx" <> Cbs "shnaton/2023/06_01.xlsx".
Proof. by vm_compute. Qed.

(** C3 (amended): for the fetchers that build the file name from their own
    parameters, the path a successful call returns depends on the fetcher,
    its parameters and the destination only; under one destination, equal
    paths mean equal parameters whenever the parameters hold no path
    separator.  [fetch_cbs_table] keeps only the last segment of its table
    id, so table ids with the same last segment share a path. *)
Theorem output_path_of_parameters env1 env2 i j dest w1 w2 p q :
  (invoke env1 i dest w1).1 = Ok p ->
  (invoke env2 j dest w2).1 = Ok q ->
  (kind i = KindStatus \/ kind i = KindUndocumented -> i = j -> p = q) /\
  (same_fetcher i j = true -> separator_free i = true -> separator_free j = true ->
   p = q -> i = j) /\
  (forall t1 t2, i = Cbs t1 -> j = Cbs t2 -> last_segment t1 = last_segment t2 -> p = q).
Proof.
  intros Hp Hq. split_and!.
  - intros K <-. destruct (single_request_shape i K) as (url & nm & Hu & Hn).
    destruct (invoke_single_ok _ _ _ _ _ _ _ Hu Hn Hp) as [-> _].
    by destruct (invoke_single_ok _ _ _ _ _ _ _ Hu Hn Hq) as [-> _].
  - intros Hsame Hi Hj <-.
    assert (Ki : kind i = KindStatus \/ kind i = KindUndocumented)
      by (destruct i; try discriminate; simpl; eauto).
    assert (Kj : kind j = KindStatus \/ kind j = KindUndocumented)
      by (destruct j; try discriminate; simpl; eauto).
    destruct (single_request_shape i Ki) as (ui & ni & Hui & Hni).
    destruct (single_request_shape j Kj) as (uj & nj & Huj & Hnj).
    pose proof (invoke_single_ok_plain _ _ _ _ _ _ _ Hui Hni
                  (file_name_separator_free _ _ Hi Hni) Hp) as Ep.
    pose proof (invoke_single_ok_plain _ _ _ _ _ _ _ Huj Hnj
                  (file_name_separator_free _ _ Hj Hnj) Hq) as Eq.
    rewrite Ep in Eq. injection Eq as Eq. apply app_inv_head in Eq.
    injection Eq as ->. by apply (file_name_inj i j nj).
  - intros t1 t2 -> -> Hl.
    destruct (invoke_single_ok env1 (Cbs t1) dest _ _ w1 p eq_refl (cbs_file_name t1) Hp)
      as [-> _].
    destruct (invoke_single_ok env2 (Cbs t2) dest _ _ w2 q eq_refl (cbs_file_name t2) Hq)
      as [-> _].
    by rewrite Hl.
Qed.

Lemma output_path_of_parameters_witness :
  let env := constant_env (plain_response 200 "{}") 0 in
  let i := NadlanGov 2023 in
  let j := NadlanGov 2024 in
  let p := mkPath "" ["data_raw"; "nadlan_transactions_2023.json"] in
  let q := mkPath "" ["data_raw"; "nadlan_transactions_2024.json"] in
  (kind i = KindStatus \/ kind i = KindUndocumented -> i = j -> p = q) /\
  (same_fetcher i j = true -> separator_free i = true -> separator_free j = true ->
   p = q -> i = j) /\
  (forall t1 t2, i = Cbs t1 -> j = Cbs t2 -> last_segment t1 = last_segment t2 -> p = q).
Proof.
  apply (output_path_of_parameters
           (constant_env (plain_response 200 "{}") 0)
           (constant_env (plain_response 200 "{}") 0)
           (NadlanGov 2023) (NadlanGov 2024) None empty_world empty_world);
    by vm_compute.
Defined.

End OutputPaths.

(** ** The object store *)

Section ObjectStore.
Import Storage.

Lemma backend_call_ok {A} c (k : Py Backend A) st :
  faults st (length (calls st)) = None -> backend_call c k st = k (record c st).
Proof. unfold backend_call. by intros ->. Qed.

Lemma backend_call_fault {A} c (k : Py Backend A) st e :
  faults st (length (calls st)) = Some e ->
  backend_call c k st = (Raise e, record c st).
Proof. unfold backend_call. by intros ->. Qed.

Lemma no_faults_record c st : no_faults st -> no_faults (record c st).
Proof. done. Qed.

Lemma no_faults_set_buckets b st : no_faults st -> no_faults (set_buckets b st).
Proof. done. Qed.

(** Every run of [ensure_bucket_exists], spelled out. *)
Lemma ensure_bucket_exists_run client b st :
  ensure_bucket_exists client b st =
    let st1 := record (CBucketExists b) st in
    match faults st (length (calls st)) with
    | Some e => (Raise e, st1)
    | None =>
        if has_bucket st b then (Ok tt, st1)
        else
          let st2 := record (CMakeBucket b) st1 in
          match faults st (length (calls st1)) with
          | Some e => (Raise e, st2)
          | None => (Ok tt, set_buckets (<[b := ∅]> (buckets st)) st2)
          end
    end.
Proof.
  unfold ensure_bucket_exists, bind, bucket_exists, make_bucket, has_bucket.
  unfold backend_call at 1. cbn zeta.
  destruct (faults st (length (calls st))) as [e|]; [done|]. simpl.
  destruct (bool_decide (is_Some (buckets st !! b))) eqn:E; simpl; [done|].
  unfold backend_call. simpl.
  destruct (faults st _) as [e|]; [done|].
  apply bool_decide_eq_false in E.
  destruct (buckets st !! b) eqn:Eb; [|done].
  exfalso. apply E. eauto.
Qed.

(** C5: [ensure_bucket_exists] asks whether the bucket exists before
    anything else; a failure of that check reaches the caller unchanged and
    nothing is created; an existing bucket is left alone and the call
    returns normally; a missing one is created.  Against a backend that does
    not fail, two calls in a row create the bucket at most once, exactly
    once when it was missing, and the second call changes nothing in the
    store. *)
Theorem ensure_bucket_exists_idempotent client b st :
  let r1 := ensure_bucket_exists client b st in
  let r2 := ensure_bucket_exists client b r1.2 in
  let since := drop (length (calls st)) in
  head (since (calls r1.2)) = Some (CBucketExists b) /\
  (forall e, faults st (length (calls st)) = Some e ->
     r1.1 = Raise e /\ since (calls r1.2) = [CBucketExists b] /\
     buckets r1.2 = buckets st) /\
  (faults st (length (calls st)) = None -> has_bucket st b = true ->
     r1.1 = Ok tt /\ since (calls r1.2) = [CBucketExists b] /\
     buckets r1.2 = buckets st) /\
  (no_faults st ->
     r1.1 = Ok tt /\ r2.1 = Ok tt /\
     has_bucket r1.2 b = true /\
     buckets r2.2 = buckets r1.2 /\
     make_bucket_calls b (since (calls r2.2)) = (if has_bucket st b then 0 else 1)%nat).
Proof.
  intros r1 r2 since. subst r1 r2 since.
  rewrite (ensure_bucket_exists_run client b st). cbn zeta.
  split_and!.
  - destruct (faults st _); [simpl; by rewrite drop_app_length|].
    destruct (has_bucket st b); [simpl; by rewrite drop_app_length|].
    destruct (faults st _); simpl; by rewrite <- app_assoc, drop_app_length.
  - intros e ->. simpl. by rewrite drop_app_length.
  - intros -> ->. simpl. by rewrite drop_app_length.
  - intros Hnf. rewrite !Hnf.
    destruct (has_bucket st b) eqn:Hb; simpl.
    + rewrite ensure_bucket_exists_run. cbn zeta. simpl.
      rewrite !Hnf. unfold has_bucket in *. simpl. rewrite Hb. simpl.
      rewrite <- app_assoc, drop_app_length. simpl.
      split_and!; try done; unfold make_bucket_calls; simpl;
        by repeat case_bool_decide.
    + rewrite ensure_bucket_exists_run. cbn zeta. simpl.
      rewrite !Hnf. unfold has_bucket. simpl.
      rewrite lookup_insert_eq. rewrite bool_decide_eq_true_2 by eauto. simpl.
      rewrite <- !app_assoc, drop_app_length. simpl.
      split_and!; try done; unfold make_bucket_calls; simpl;
        by repeat case_bool_decide.
Qed.

Lemma ensure_bucket_exists_idempotent_witness :
  let r1 := ensure_bucket_exists get_minio_client MINIO_BUCKET fresh_backend in
  let r2 := ensure_bucket_exists get_minio_client MINIO_BUCKET r1.2 in
  r1.1 = Ok tt /\ r2.1 = Ok tt /\
  has_bucket r1.2 MINIO_BUCKET = true /\
  buckets r2.2 = buckets r1.2 /\
  make_bucket_calls MINIO_BUCKET (calls r2.2) = 1%nat.
Proof.
  exact (proj2 (proj2 (proj2
           (ensure_bucket_exists_idempotent get_minio_client MINIO_BUCKET fresh_backend)))
           (fun _ => eq_refl)).
Defined.

Lemma ensure_bucket_exists_ok client b st :
  no_faults st ->
  ensure_bucket_exists client b st = (Ok tt, ensured_backend st b).
Proof.
  intros Hnf. rewrite ensure_bucket_exists_run. cbn zeta. rewrite !Hnf.
  unfold ensured_backend. by destruct (has_bucket st b).
Qed.

(** A buffer that was written from its start and rewound holds exactly what
    was written, and reading its whole length returns it. *)
Lemma buffer_written_and_rewound data :
  let b := bio_seek (bio_write (BytesIO_new []) data) 0 in
  nbytes b = length data /\ bio_read b (nbytes b) = data /\
  drop (pos b) (buf b) = data.
Proof.
  unfold bio_seek, bio_write, BytesIO_new, nbytes, bio_read. simpl.
  rewrite drop_nil, app_nil_r. split_and!; try done. by rewrite firstn_all.
Qed.

Lemma ensured_backend_facts st b :
  no_faults st ->
  no_faults (ensured_backend st b) /\
  has_bucket (ensured_backend st b) b = true /\
  calls (ensured_backend st b) =
    calls st ++ CBucketExists b :: (if has_bucket st b then [] else [CMakeBucket b]).
Proof.
  intros Hnf. unfold ensured_backend.
  destruct (has_bucket st b) eqn:Hb; simpl; split_and!; try done.
  - unfold has_bucket. simpl. rewrite lookup_insert_eq.
    apply bool_decide_eq_true_2. eauto.
  - by rewrite <- app_assoc.
Qed.

(** Every run of [save_parquet] against a backend that does not fail. *)
Lemma save_parquet_run codec df filename st :
  no_faults st ->
  save_parquet codec df filename st =
    let st1 := ensured_backend st MINIO_BUCKET in
    match encode_table codec (columns df) with
    | inl e => (Raise e, st1)
    | inr data =>
        (Ok (str filename),
         set_buckets
           (<[MINIO_BUCKET := <[str filename := data]>
                                (default ∅ (buckets st1 !! MINIO_BUCKET))]>
              (buckets st1))
           (record (CPutObject MINIO_BUCKET (str filename) data (length data)
                               "application/octet-stream") st1))
    end.
Proof.
  intros Hnf. unfold save_parquet. cbn zeta. unfold bind at 1.
  rewrite (ensure_bucket_exists_ok _ _ _ Hnf).
  fold (ensured_backend st MINIO_BUCKET).
  destruct (ensured_backend_facts st MINIO_BUCKET Hnf) as (Hnf1 & Hb1 & _).
  set (st1 := ensured_backend st MINIO_BUCKET) in *.
  unfold bind at 1. unfold to_parquet.
  destruct (encode_table codec (columns df)) as [e|data]; [done|].
  unfold ret at 1.
  destruct (buffer_written_and_rewound data) as (Hn & Hr & _). cbn zeta in Hn, Hr.
  rewrite Hn in Hr.
  unfold bind. unfold put_object. rewrite Hn.
  rewrite (backend_call_ok _ _ _ (Hnf1 _)). rewrite !Hr.
  rewrite bool_decide_eq_false_2 by lia. simpl buckets.
  unfold has_bucket in Hb1.
  apply bool_decide_eq_true in Hb1 as [objs Hobjs]. rewrite Hobjs.
  unfold ret. by simpl.
Qed.

(** C6 (counterexample): with a dataset whose column mixes the integer 1
    and the string a, which [to_parquet] refuses, the code has already asked
    for the bucket and created it when the serialization raises; in the
    order the claim gives, no call would have reached the store. *)
Lemma save_parquet_ensures_bucket_first :
  let run := save_parquet pyarrow_codebook mixed_frame (FStr "t.parquet") fresh_backend in
  let claimed :=
    save_parquet_serialize_first pyarrow_codebook mixed_frame (FStr "t.parquet")
                                 fresh_backend in
  columns mixed_frame = [("b", [CInt 1; CStr "a"])] /\
  run.1 = Raise ArrowInvalid /\
  calls run.2 = [CBucketExists "data-lake"; CMakeBucket "data-lake"] /\
  has_bucket run.2 "data-lake" = true /\
  claimed.1 = Raise ArrowInvalid /\
  calls claimed.2 = [] /\
  has_bucket claimed.2 "data-lake" = false.
Proof. by vm_compute. Qed.

(** C6 (amended): against a backend that does not fail, [save_parquet]
    first ensures that the bucket exists, then serializes the dataset into
    an in-memory buffer, then writes the whole buffer under the key with
    content type [application/octet-stream] and its exact length, and
    returns [str(filename)], the name of the object it wrote.  When the
    serialization raises, the bucket has been ensured already and nothing is
    written. *)
Theorem save_parquet_steps codec df filename st :
  no_faults st ->
  let run := save_parquet codec df filename st in
  let ensured :=
    CBucketExists MINIO_BUCKET ::
    (if has_bucket st MINIO_BUCKET then [] else [CMakeBucket MINIO_BUCKET]) in
  has_bucket run.2 MINIO_BUCKET = true /\
  match encode_table codec (columns df) with
  | inl e =>
      run.1 = Raise e /\ calls run.2 = calls st ++ ensured
  | inr data =>
      run.1 = Ok (str filename) /\
      calls run.2 =
        calls st ++ ensured ++
        [CPutObject MINIO_BUCKET (str filename) data (length data)
                    "application/octet-stream"] /\
      exists objs, buckets run.2 !! MINIO_BUCKET = Some objs /\
                   objs !! str filename = Some data
  end.
Proof.
  intros Hnf run ensured. subst run ensured.
  rewrite (save_parquet_run _ _ _ _ Hnf). cbn zeta.
  destruct (ensured_backend_facts st MINIO_BUCKET Hnf) as (Hnf1 & Hb1 & Hc1).
  set (st1 := ensured_backend st MINIO_BUCKET) in *.
  destruct (encode_table codec (columns df)) as [e|data]; simpl.
  - by rewrite Hc1.
  - unfold has_bucket. simpl. rewrite lookup_insert_eq. split_and!.
    + apply bool_decide_eq_true_2. eauto.
    + done.
    + by rewrite Hc1, <- app_assoc.
    + eexists. split; [done|]. by rewrite lookup_insert_eq.
Qed.

Lemma save_parquet_steps_witness :
  let run := save_parquet codebook_codec sample_frame (FStr "t.parquet") fresh_backend in
  has_bucket run.2 MINIO_BUCKET = true /\
  run.1 = Ok "t.parquet" /\
  calls run.2 =
    [CBucketExists MINIO_BUCKET; CMakeBucket MINIO_BUCKET;
     CPutObject MINIO_BUCKET "t.parquet" sample_bytes 4 "application/octet-stream"] /\
  exists objs, buckets run.2 !! MINIO_BUCKET = Some objs /\
               objs !! "t.parquet" = Some sample_bytes.
Proof.
  exact (save_parquet_steps codebook_codec sample_frame (FStr "t.parquet")
           fresh_backend (fun _ => eq_refl)).
Defined.

(** Every run of [load_parquet] on a stored object, against a backend that
    does not fail. *)
Lemma load_parquet_run codec filename st objs data :
  no_faults st ->
  buckets st !! MINIO_BUCKET = Some objs ->
  objs !! str filename = Some data ->
  load_parquet codec filename st =
    let h := length (calls st) in
    let st2 := record (CRead h) (record (CGetObject MINIO_BUCKET (str filename)) st) in
    match decode_table codec data with
    | inl e => (Raise e, st2)
    | inr t =>
        (Ok (mkDataFrame (range_index (nrows t)) t),
         record (CReleaseConn h) (record (CClose h) st2))
    end.
Proof.
  intros Hnf Hb Hk. unfold load_parquet. cbn zeta.
  unfold bind at 1. unfold get_object.
  rewrite (backend_call_ok _ _ _ (Hnf _)). simpl buckets. rewrite Hb, Hk.
  unfold bind at 1. unfold response_read. simpl handle. simpl body.
  rewrite backend_call_ok by apply Hnf. unfold ret at 1.
  unfold bind at 1. unfold read_parquet, BytesIO_new. cbn [pos buf].
  rewrite drop_0.
  destruct (decode_table codec data) as [e|t]; [reflexivity|].
  unfold ret at 1. unfold bind, response_close, response_release_conn. simpl handle.
  rewrite backend_call_ok by apply Hnf. unfold ret at 1.
  rewrite backend_call_ok by apply Hnf. reflexivity.
Qed.

(** X2: on the path where everything succeeds the response is closed once
    and its connection released once. *)
Lemma load_parquet_releases_on_success codec filename st objs data t :
  no_faults st ->
  buckets st !! MINIO_BUCKET = Some objs ->
  objs !! str filename = Some data ->
  decode_table codec data = inr t ->
  let run := load_parquet codec filename st in
  let h := length (calls st) in
  is_ok run.1 = true /\
  closes h (drop h (calls run.2)) = 1%nat /\
  releases h (drop h (calls run.2)) = 1%nat.
Proof.
  intros Hnf Hb Hk Hd run h. subst run h.
  rewrite (load_parquet_run _ _ _ _ _ Hnf Hb Hk). cbn zeta. rewrite Hd. simpl.
  rewrite <- !app_assoc, drop_app_length. unfold closes, releases. simpl.
  repeat case_bool_decide; done.
Qed.

(** C1 (the defect): when the bytes of the object do not deserialize,
    [load_parquet] propagates the exception without having closed the
    response or released its connection: after the read no further call is
    made. *)
Theorem load_parquet_leaks_response codec filename st objs data e :
  no_faults st ->
  buckets st !! MINIO_BUCKET = Some objs ->
  objs !! str filename = Some data ->
  decode_table codec data = inl e ->
  let run := load_parquet codec filename st in
  let h := length (calls st) in
  run.1 = Raise e /\
  drop h (calls run.2) = [CGetObject MINIO_BUCKET (str filename); CRead h] /\
  closes h (drop h (calls run.2)) = 0%nat /\
  releases h (drop h (calls run.2)) = 0%nat.
Proof.
  intros Hnf Hb Hk Hd run h. subst run h.
  rewrite (load_parquet_run _ _ _ _ _ Hnf Hb Hk). cbn zeta. rewrite Hd. simpl.
  rewrite <- !app_assoc, drop_app_length. unfold closes, releases. simpl.
  repeat case_bool_decide; done.
Qed.

Lemma load_parquet_leaks_response_witness :
  let run := load_parquet codebook_codec (FStr "bad.parquet") corrupt_backend in
  run.1 = Raise ArrowInvalid /\
  calls run.2 = [CGetObject MINIO_BUCKET "bad.parquet"; CRead 0] /\
  closes 0 (calls run.2) = 0%nat /\
  releases 0 (calls run.2) = 0%nat.
Proof.
  exact (load_parquet_leaks_response codebook_codec (FStr "bad.parquet")
           corrupt_backend {[ "bad.parquet" := [x00] ]} [x00] ArrowInvalid
           (fun _ => eq_refl) eq_refl eq_refl eq_refl).
Defined.

(** The same happens when reading the body fails. *)
Lemma load_parquet_leaks_on_read_failure :
  let st := mkBackend {[ MINIO_BUCKET := {[ "t.parquet" := sample_bytes ]} ]} []
                      (fun n => if (n =? 1)%nat then Some ConnectionError else None) in
  let run := load_parquet codebook_codec (FStr "t.parquet") st in
  run.1 = Raise ConnectionError /\
  calls run.2 = [CGetObject MINIO_BUCKET "t.parquet"; CRead 0].
Proof. by vm_compute. Qed.

(** C4 (counterexample): a dataset whose column holds the integer 1 and
    [None] is saved without an error, and loading the same key returns a
    dataset whose column holds the floats 1.0 and NaN: the cell values are
    not the ones that were saved. *)
Lemma nullable_column_comes_back_as_floats :
  let saved :=
    save_parquet pyarrow_codebook nullable_frame (FStr "t.parquet") fresh_backend in
  let loaded := load_parquet pyarrow_codebook (FStr "t.parquet") saved.2 in
  columns nullable_frame = [("a", [CInt 1; CNull])] /\
  saved.1 = Ok "t.parquet" /\
  loaded.1 = Ok (mkDataFrame [CInt 0; CInt 1] [("a", [CFloat 1 0; CNaN])]) /\
  ~ (exists df', loaded.1 = Ok df' /\ columns df' = columns nullable_frame).
Proof.
  cbv zeta. split_and!; [by vm_compute ..|].
  intros (df' & H & Hc). vm_compute in H. injection H as <-. discriminate Hc.
Qed.

(** C4 (amended): against a backend that does not fail, when the encoder
    serializes the dataset and the decoder reads those bytes as the table
    [t], [save_parquet] returns [str(filename)] and [load_parquet] on the
    same key returns exactly [t] with the default row labels: storing and
    fetching change nothing.  The loaded dataset therefore has the columns,
    the order and the cells of the saved one exactly when the columnar
    encoding gives the table back unchanged. *)
Theorem save_then_load codec df filename st data t :
  no_faults st ->
  encode_table codec (columns df) = inr data ->
  decode_table codec data = inr t ->
  let saved := save_parquet codec df filename st in
  let loaded := load_parquet codec filename saved.2 in
  saved.1 = Ok (str filename) /\
  loaded.1 = Ok (mkDataFrame (range_index (nrows t)) t) /\
  ((exists df', loaded.1 = Ok df' /\ columns df' = columns df) <-> t = columns df).
Proof.
  intros Hnf He Hd saved loaded.
  assert (Hs : saved.1 = Ok (str filename)).
  { subst saved. rewrite (save_parquet_run _ _ _ _ Hnf). cbn zeta.
    rewrite He. by simpl. }
  assert (Hl : loaded.1 = Ok (mkDataFrame (range_index (nrows t)) t)).
  { subst saved loaded.
    rewrite (save_parquet_run _ _ _ _ Hnf). cbn zeta. rewrite He. simpl.
    erewrite load_parquet_run.
    - cbn zeta. rewrite Hd. by simpl.
    - destruct (ensured_backend_facts st MINIO_BUCKET Hnf) as (Hnf1 & _). done.
    - simpl. apply lookup_insert_eq.
    - apply lookup_insert_eq. }
  split_and!; [done | done |].
  rewrite Hl. split.
  - intros (df' & [= <-] & Hc). done.
  - intros ->. eexists. split; [done|]. done.
Qed.

Lemma save_then_load_witness :
  let saved := save_parquet codebook_codec sample_frame (FStr "t.parquet") fresh_backend in
  let loaded := load_parquet codebook_codec (FStr "t.parquet") saved.2 in
  saved.1 = Ok "t.parquet" /\
  loaded.1 = Ok (mkDataFrame (range_index (nrows sample_table)) sample_table) /\
  ((exists df', loaded.1 = Ok df' /\ columns df' = columns sample_frame)
   <-> sample_table = columns sample_frame).
Proof.
  exact (save_then_load codebook_codec sample_frame (FStr "t.parquet") fresh_backend
           sample_bytes sample_table (fun _ => eq_refl) eq_refl eq_refl).
Defined.

(** The row labels are not part of what is stored: the sample dataset comes
    back with the default labels instead of its own. *)
Lemma row_labels_are_reset :
  let saved := save_parquet codebook_codec sample_frame (FStr "t.parquet") fresh_backend in
  (load_parquet codebook_codec (FStr "t.parquet") saved.2).1
    = Ok (mkDataFrame [CInt 0; CInt 1] sample_table) /\
  index sample_frame = [CStr "x"; CStr "y"].
Proof. by vm_compute. Qed.

End ObjectStore.

(** ** Further properties of the two modules *)

Section Further.
Import Fetchers Storage.

(** X1: when a single-request fetcher returns, the returned path is the
    destination directory joined with the fetcher's file name, and the file
    at that path holds the body of the response, unchanged. *)
Theorem fetch_stores_body env i dest url nm w p :
  request_url i = Some url -> file_name i = Some nm ->
  (invoke env i dest w).1 = Ok p ->
  p = path_join (or_DATA_DIR dest) nm /\
  exists r, http env url = Responded r /\
            fs (invoke env i dest w).2 !! p = Some (File (payload i r)).
Proof.
  intros Hu Hn. rewrite (invoke_single_run env i dest url nm w Hu Hn). cbn zeta.
  destruct (mkdir_p _ _) as [?|f1]; [done|].
  destruct (http env url) as [r|?]; [|done].
  destruct (status_failure _ r); [done|].
  destruct (write_file _ _ f1) as [?|f2] eqn:Ew; [done|].
  simpl. intros [= <-]. split; [done|]. exists r. split; [done|].
  rewrite (write_file_lookup _ _ _ _ Ew). apply lookup_insert_eq.
Qed.

Lemma fetch_stores_body_witness :
  let env := constant_env (plain_response 200 "PK-xlsx") 0 in
  let m := invoke env (Cbs "shnaton/2023/06_01.xlsx") (Some (path_of_string "./tmp")) in
  mkPath "" ["tmp"; "06_01.xlsx"] = path_join (path_of_string "./tmp") "06_01.xlsx" /\
  exists r, http env "https://www.cbs.gov.il/he/publications/doclib/shnaton/2023/06_01.xlsx"
              = Responded r /\
            fs (m empty_world).2 !! mkPath "" ["tmp"; "06_01.xlsx"]
              = Some (File (content r)).
Proof.
  exact (fetch_stores_body
           (constant_env (plain_response 200 "PK-xlsx") 0)
           (Cbs "shnaton/2023/06_01.xlsx") (Some (path_of_string "./tmp"))
           "https://www.cbs.gov.il/he/publications/doclib/shnaton/2023/06_01.xlsx"
           "06_01.xlsx" empty_world (mkPath "" ["tmp"; "06_01.xlsx"])
           eq_refl eq_refl eq_refl).
Defined.

Lemma load_parquet_releases_on_success_witness :
  let st := (save_parquet codebook_codec sample_frame (FStr "t.parquet") fresh_backend).2 in
  let run := load_parquet codebook_codec (FStr "t.parquet") st in
  is_ok run.1 = true /\
  closes 3 (drop 3 (calls run.2)) = 1%nat /\
  releases 3 (drop 3 (calls run.2)) = 1%nat.
Proof.
  exact (load_parquet_releases_on_success codebook_codec (FStr "t.parquet")
           (save_parquet codebook_codec sample_frame (FStr "t.parquet") fresh_backend).2
           {[ "t.parquet" := sample_bytes ]} sample_bytes sample_table
           (fun _ => eq_refl) eq_refl eq_refl eq_refl).
Defined.

Lemma datagov_download_error_status_witness :
  let env :=
    mkEnv (fun u => if String.eqb u "https://x.org/files/a.csv"
                    then Responded (plain_response 500 "down")
                    else Responded (datagov_info "https://x.org/files/a.csv"))
          (fun _ f => (0, f)) in
  let m := fetch_datagov_resource env "r1" None in
  (m empty_world).1 = Raise (HTTPError 500) /\
  requests_issued m empty_world = 2%nat /\
  writes_issued m empty_world = 0%nat /\
  same_files (fs empty_world) (fs (m empty_world).2).
Proof.
  exact (datagov_download_error_status
           (mkEnv (fun u => if String.eqb u "https://x.org/files/a.csv"
                            then Responded (plain_response 500 "down")
                            else Responded (datagov_info "https://x.org/files/a.csv"))
                  (fun _ f => (0, f)))
           "r1" None empty_world (datagov_info "https://x.org/files/a.csv")
           "https://x.org/files/a.csv" (plain_response 500 "down")
           eq_refl eq_refl eq_refl eq_refl eq_refl).
Defined.

End Further.
(** ** Filesystem effects of the fetchers *)

Section FetcherEffects.
Import Fetchers.



(** After a successful [mkdir], the parent of the directory is a directory
    too, and writing to the directory itself is refused. *)
Lemma mkdir_p_parent_is_dir p (f f' : FS) :
  mkdir_p p f = inr f' -> node_at f' (parent p) = Some Dir.
Proof.
  intros H. unfold node_at, parent. simpl.
  destruct (removelast (parts p)) as [|c ps] eqn:E; [done|].
  rewrite removelast_firstn_len in E. rewrite <- E.
  apply (mkdir_p_parents _ _ _ _ H).
  destruct (parts p) as [|a [|b l]]; simpl in *; try done. lia.
Qed.

Lemma write_file_to_made_dir p data (f f' : FS) :
  mkdir_p p f = inr f' -> write_file p data f' = inl IsADirectoryError.
Proof.
  intros H. unfold write_file.
  destruct (parts p) eqn:Ep; [done|].
  rewrite (mkdir_p_parent_is_dir _ _ _ H).
  pose proof (mkdir_p_is_dir _ _ _ H) as Hd. unfold is_dir, node_at in Hd.
  rewrite Ep in Hd. by destruct (f' !! p) as [[|?]|].
Qed.








(** X6: a table id that is empty or ends in a slash (or in a dot segment)
    leaves no file name: [fetch_cbs_table] downloads the table all the same
    and then fails with [IsADirectoryError], because the path to write is
    the destination directory itself. *)
Theorem cbs_directory_table_id env table_id dest w r :
  keep_part (last_segment table_id) = false ->
  mkdir_succeeds dest w = true ->
  http env ("https://www.cbs.gov.il/he/publications/doclib" +:+ "/" +:+ table_id)
    = Responded r ->
  is_error_status (status_code r) = false ->
  let m := fetch_cbs_table env table_id dest in
  (m w).1 = Raise IsADirectoryError /\
  requests_issued m w = 1%nat /\
  same_files (fs w) (fs (m w).2).
Proof.
  intros Hk Hm Hr Hs m. subst m. unfold mkdir_succeeds in Hm.
  change (fetch_cbs_table env table_id dest) with (invoke env (Cbs table_id) dest).
  unfold requests_issued, events.
  rewrite (invoke_single_run env (Cbs table_id) dest _ _ w eq_refl (cbs_file_name table_id)).
  cbn zeta. destruct (mkdir_p _ (fs w)) as [?|f1] eqn:Em; [done|].
  rewrite Hr. unfold status_failure. simpl kind. cbv iota. rewrite Hs.
  rewrite (path_join_plain _ _ (last_segment_no_slash table_id)), Hk, app_nil_r.
  replace (mkPath (root (or_DATA_DIR dest)) (parts (or_DATA_DIR dest)))
    with (or_DATA_DIR dest) by by destruct (or_DATA_DIR dest).
  rewrite (write_file_to_made_dir _ _ _ _ Em). simpl.
  rewrite drop_trace. simpl. split_and!; try done.
  by apply (mkdir_p_same_files _ _ _ Em).
Qed.

Lemma cbs_directory_table_id_witness :
  let env := constant_env (plain_response 200 "table") 0 in
  let m := fetch_cbs_table env "shnaton/2023/" None in
  (m empty_world).1 = Raise IsADirectoryError /\
  requests_issued m empty_world = 1%nat /\
  same_files (fs empty_world) (fs (m empty_world).2).
Proof.
  exact (cbs_directory_table_id (constant_env (plain_response 200 "table") 0)
           "shnaton/2023/" None empty_world (plain_response 200 "table")
           eq_refl eq_refl eq_refl eq_refl).
Defined.

Lemma keep_part_suffix s : keep_part (s +:+ ".json") = true.
Proof.
  destruct s as [|a s]; [done|]. unfold keep_part. simpl.
  destruct (Ascii.eqb a "."); [|done]. by destruct s.
Qed.

Lemma append_assoc s t u : (s +:+ t) +:+ u = s +:+ (t +:+ u).
Proof.
  induction s as [|c s IH]; [done|].
  change (String c ((s +:+ t) +:+ u) = String c (s +:+ (t +:+ u))). by rewrite IH.
Qed.

Lemma parse_parts_nested pre a b suf :
  has_char slash (pre +:+ a) = false -> has_char slash (b +:+ suf) = false ->
  keep_part (pre +:+ a) = true -> keep_part (b +:+ suf) = true ->
  parse_parts (pre +:+ (a +:+ "/" +:+ b) +:+ suf) = [pre +:+ a; b +:+ suf].
Proof.
  intros Ha Hb Ka Kb. unfold parse_parts.
  replace (pre +:+ (a +:+ "/" +:+ b) +:+ suf)
    with ((pre +:+ a) +:+ String slash (b +:+ suf)).
  2:{ rewrite !append_assoc. simpl. done. }
  rewrite split_append_sep, (split_no_sep _ _ Ha), (split_no_sep _ _ Hb).
  simpl. by rewrite Ka, Kb.
Qed.

Lemma write_file_missing_parent r ps x y data (f : FS) :
  f !! mkPath r (ps ++ [x]) = None ->
  write_file (mkPath r (ps ++ [x; y])) data f
    = inl (FileNotFoundError (str_of_path (mkPath r (ps ++ [x; y])))).
Proof.
  intros Hnone. unfold write_file. simpl parts.
  destruct (ps ++ [x; y]) eqn:E; [by destruct ps|]. rewrite <- E.
  unfold node_at, parent. simpl root. simpl parts.
  replace (removelast (ps ++ [x; y])) with (ps ++ [x]).
  2:{ change [x; y] with ([x] ++ [y]). by rewrite app_assoc, removelast_last. }
  destruct (ps ++ [x]) eqn:E'; [by destruct ps|]. by rewrite Hnone.
Qed.

(** X7: a plan id with a slash in it is not flattened: the file name keeps
    the slash, so [fetch_opentaba_plan] downloads the plan and then fails
    with [FileNotFoundError] unless the intermediate directory happens to
    exist; it never creates that directory. *)
Theorem opentaba_nested_plan_id env a b dest w f1 r :
  has_char slash a = false -> has_char slash b = false ->
  mkdir_p (or_DATA_DIR dest) (fs w) = inr f1 ->
  f1 !! mkPath (root (or_DATA_DIR dest))
               (parts (or_DATA_DIR dest) ++ ["opentaba_plan_" +:+ a]) = None ->
  http env ("https://opentaba-server.herokuapp.com/api/plans/" +:+ a +:+ "/" +:+ b)
    = Responded r ->
  is_error_status (status_code r) = false ->
  let m := fetch_opentaba_plan env (a +:+ "/" +:+ b) dest in
  (exists msg, (m w).1 = Raise (FileNotFoundError msg)) /\
  requests_issued m w = 1%nat /\
  fs (m w).2 = f1.
Proof.
  intros Ha Hb Em Hnone Hr Hs m. subst m.
  change (fetch_opentaba_plan env (a +:+ "/" +:+ b) dest)
    with (invoke env (Opentaba (a +:+ "/" +:+ b)) dest).
  unfold requests_issued, events.
  rewrite (invoke_single_run env (Opentaba (a +:+ "/" +:+ b)) dest _ _ w eq_refl eq_refl).
  cbn zeta. rewrite Em, Hr. unfold status_failure. simpl kind. cbv iota. rewrite Hs.
  set (nm := "opentaba_plan_" +:+ (a +:+ "/" +:+ b) +:+ ".json").
  assert (Hparts : parse_parts nm = ["opentaba_plan_" +:+ a; b +:+ ".json"]).
  { unfold nm. apply parse_parts_nested.
    - by rewrite has_char_append, Ha.
    - by rewrite has_char_append, Hb.
    - done.
    - apply keep_part_suffix. }
  unfold path_join. change (root_of nm) with "". simpl String.eqb. cbv iota.
  rewrite Hparts, (write_file_missing_parent _ _ _ _ _ _ Hnone). simpl.
  rewrite drop_trace. simpl. eauto.
Qed.

Lemma opentaba_nested_plan_id_witness :
  let m := fetch_opentaba_plan (constant_env (plain_response 200 "{}") 0)
             ("100" +:+ "/" +:+ "0136956") None in
  (exists msg, (m empty_world).1 = Raise (FileNotFoundError msg)) /\
  requests_issued m empty_world = 1%nat /\
  fs (m empty_world).2 = <[or_DATA_DIR None := Dir]> ∅.
Proof.
  refine (opentaba_nested_plan_id (constant_env (plain_response 200 "{}") 0)
            "100" "0136956" None empty_world (<[or_DATA_DIR None := Dir]> ∅)
            (plain_response 200 "{}") eq_refl eq_refl eq_refl _ eq_refl eq_refl).
  vm_compute. reflexivity.
Defined.

(** X8: when the metadata document of [fetch_datagov_resource] does not
    decode, or lacks the [result] or the [url] key, the call fails with
    [JSONDecodeError] or the [KeyError] for that key right after its first
    request: no directory is created and nothing is downloaded or
    written. *)
Theorem datagov_metadata_errors env rid dest w r :
  http env ("https://data.gov.il/api/3/action/resource_show?id=" +:+ rid) = Responded r ->
  is_error_status (status_code r) = false ->
  let m := fetch_datagov_resource env rid dest in
  let stopped_with e :=
    (m w).1 = Raise e /\
    events m w = [EvGet ("https://data.gov.il/api/3/action/resource_show?id=" +:+ rid)] /\
    fs (m w).2 = fs w in
  (json r = None -> stopped_with JSONDecodeError) /\
  (forall items, json r = Some (JDict items) -> dict_get "result" items = None ->
     stopped_with (KeyError "result")) /\
  (forall items items', json r = Some (JDict items) ->
     dict_get "result" items = Some (JDict items') -> dict_get "url" items' = None ->
     stopped_with (KeyError "url")).
Proof.
  intros Hr Hs m stopped_with. subst m stopped_with. cbv beta. unfold events.
  rewrite datagov_run. cbn zeta. rewrite Hr. unfold download_url, status_failure.
  rewrite Hs. split_and!.
  - intros ->. simpl. by rewrite drop_trace.
  - intros items -> ->. simpl. by rewrite drop_trace.
  - intros items items' -> -> ->. simpl. by rewrite drop_trace.
Qed.

Lemma datagov_metadata_errors_witness :
  let env := constant_env (mkResponse 200 "{}" "{}" (Some (JDict []))) 0 in
  let m := fetch_datagov_resource env "r1" None in
  (m empty_world).1 = Raise (KeyError "result") /\
  events m empty_world = [EvGet ("https://data.gov.il/api/3/action/resource_show?id=" +:+ "r1")] /\
  fs (m empty_world).2 = fs empty_world.
Proof.
  exact (proj1 (proj2
           (datagov_metadata_errors
              (constant_env (mkResponse 200 "{}" "{}" (Some (JDict []))) 0)
              "r1" None empty_world (mkResponse 200 "{}" "{}" (Some (JDict [])))
              eq_refl eq_refl))
           [] eq_refl eq_refl).
Defined.

(** X9: a successful [fetch_datagov_resource] stores the download under the
    last segment of the URL the portal named in [result.url], whatever the
    resource id was, and the file holds the bytes of the second response. *)
Theorem datagov_stores_download env rid dest w p :
  (fetch_datagov_resource env rid dest w).1 = Ok p ->
  exists r1 items items' u r2,
    http env ("https://data.gov.il/api/3/action/resource_show?id=" +:+ rid) = Responded r1 /\
    json r1 = Some (JDict items) /\
    dict_get "result" items = Some (JDict items') /\
    dict_get "url" items' = Some (JStr u) /\
    http env u = Responded r2 /\
    p = path_join (or_DATA_DIR dest) (last_segment u) /\
    fs (fetch_datagov_resource env rid dest w).2 !! p = Some (File (content r2)).
Proof.
  rewrite datagov_run. cbn zeta.
  destruct (http env _) as [r1|?] eqn:H1; [|done].
  unfold download_url.
  destruct (status_failure KindDatagov r1); [done|].
  destruct (json r1) as [[| | | | |items]|] eqn:Hj; try done.
  destruct (dict_get "result" items) as [[| | | | |items']|] eqn:Hres; try done.
  destruct (dict_get "url" items') as [u|] eqn:Hurl; [|done].
  destruct (mkdir_p _ (fs w)) as [?|f1]; [done|].
  destruct u as [| | |u| |]; try done.
  destruct (http env u) as [r2|?] eqn:H2; [|done].
  destruct (status_failure KindDatagov r2); [done|].
  destruct (write_file _ _ f1) as [?|f2] eqn:Ew; [done|].
  simpl. intros [= <-]. exists r1, items, items', u, r2. split_and!; try done.
  rewrite (write_file_lookup _ _ _ _ Ew). apply lookup_insert_eq.
Qed.

Lemma datagov_stores_download_witness :
  exists r1 items items' u r2,
    http (datagov_env "https://x.org/files/a.csv")
         ("https://data.gov.il/api/3/action/resource_show?id=" +:+ "r1") = Responded r1 /\
    json r1 = Some (JDict items) /\
    dict_get "result" items = Some (JDict items') /\
    dict_get "url" items' = Some (JStr u) /\
    http (datagov_env "https://x.org/files/a.csv") u = Responded r2 /\
    mkPath "" ["data_raw"; "a.csv"] = path_join (or_DATA_DIR None) (last_segment u) /\
    fs (fetch_datagov_resource (datagov_env "https://x.org/files/a.csv") "r1" None
          empty_world).2 !! mkPath "" ["data_raw"; "a.csv"] = Some (File (content r2)).
Proof.
  exact (datagov_stores_download (datagov_env "https://x.org/files/a.csv") "r1" None
           empty_world (mkPath "" ["data_raw"; "a.csv"]) eq_refl).
Defined.

(** X10: when the destination exists as a regular file, a fetcher other
    than [fetch_datagov_resource] fails in [mkdir] with [FileExistsError]
    (or [NotADirectoryError] when an ancestor is a file too) before any
    request or subprocess, and leaves the filesystem as it was. *)
Theorem destination_is_a_file env i dest w data :
  kind i <> KindDatagov ->
  node_at (fs w) (or_DATA_DIR dest) = Some (File data) ->
  let m := invoke env i dest in
  ((m w).1 = Raise FileExistsError \/ (m w).1 = Raise NotADirectoryError) /\
  events m w = [EvMkdir (or_DATA_DIR dest)] /\
  fs (m w).2 = fs w.
Proof.
  intros K Hfile m. subst m.
  assert (Hfail : exists e, mkdir_p (or_DATA_DIR dest) (fs w) = inl e).
  { destruct (mkdir_p _ (fs w)) as [e|f1] eqn:Em; [eauto|]. exfalso.
    pose proof (mkdir_p_is_dir _ _ _ Em) as Hd.
    unfold is_dir, node_at in *. destruct (parts (or_DATA_DIR dest)); [done|].
    apply (mkdir_p_keeps_entries _ _ _ _ _ Em) in Hfile. by rewrite Hfile in Hd. }
  destruct Hfail as [e Em]. pose proof (mkdir_p_error _ _ _ Em) as He.
  unfold events. destruct (kind i) eqn:Ki; [| | |done].
  - destruct (kaggle_shape i dest Ki) as [argv Hc].
    rewrite (invoke_kaggle_run env i dest argv w Hc). cbn zeta. rewrite Em. simpl.
    rewrite drop_trace. destruct He as [-> | ->]; eauto.
  - destruct (single_request_shape i (or_introl Ki)) as (url & nm & Hu & Hn).
    rewrite (invoke_single_run env i dest url nm w Hu Hn). cbn zeta. rewrite Em. simpl.
    rewrite drop_trace. destruct He as [-> | ->]; eauto.
  - destruct (single_request_shape i (or_intror Ki)) as (url & nm & Hu & Hn).
    rewrite (invoke_single_run env i dest url nm w Hu Hn). cbn zeta. rewrite Em. simpl.
    rewrite drop_trace. destruct He as [-> | ->]; eauto.
Qed.

Lemma destination_is_a_file_witness :
  let w := mkWorld (<[mkPath "" ["out"] := File "x"]> ∅) [] in
  let m := invoke (constant_env (plain_response 200 "{}") 0) KaggleAmes
                  (Some (mkPath "" ["out"])) in
  ((m w).1 = Raise FileExistsError \/ (m w).1 = Raise NotADirectoryError) /\
  events m w = [EvMkdir (or_DATA_DIR (Some (mkPath "" ["out"])))] /\
  fs (m w).2 = fs w.
Proof.
  refine (destination_is_a_file (constant_env (plain_response 200 "{}") 0) KaggleAmes
            (Some (mkPath "" ["out"]))
            (mkWorld (<[mkPath "" ["out"] := File "x"]> ∅) []) "x" _ _).
  - discriminate.
  - vm_compute. reflexivity.
Defined.

(** X11: an exception raised by the transport itself reaches the caller
    unchanged: the directory has been created, the request was issued once
    and nothing was written. *)
Theorem transport_failure_propagates env i dest w url e :
  kind i = KindStatus \/ kind i = KindUndocumented ->
  request_url i = Some url ->
  mkdir_succeeds dest w = true ->
  http env url = Failed e ->
  let m := invoke env i dest in
  (m w).1 = Raise e /\
  events m w = [EvMkdir (or_DATA_DIR dest); EvGet url] /\
  is_dir (fs (m w).2) (or_DATA_DIR dest) = true /\
  same_files (fs w) (fs (m w).2).
Proof.
  intros K Hu Hm Hf m. subst m. unfold mkdir_succeeds in Hm.
  destruct (single_request_shape i K) as (url' & nm & Hu' & Hn).
  rewrite Hu in Hu'. injection Hu' as <-. unfold events.
  rewrite (invoke_single_run env i dest url nm w Hu Hn). cbn zeta.
  destruct (mkdir_p _ (fs w)) as [?|f1] eqn:Em; [done|].
  rewrite Hf. simpl. rewrite drop_trace. split_and!; try done.
  - by apply (mkdir_p_is_dir _ _ _ Em).
  - by apply (mkdir_p_same_files _ _ _ Em).
Qed.

Lemma transport_failure_propagates_witness :
  let m := invoke archive_env (NadlanTaxes 1) None in
  (m empty_world).1 = Raise ConnectionError /\
  events m empty_world
    = [EvMkdir (or_DATA_DIR None);
       EvGet "https://nadlan.taxes.gov.il/some_endpoint?page=1"] /\
  is_dir (fs (m empty_world).2) (or_DATA_DIR None) = true /\
  same_files (fs empty_world) (fs (m empty_world).2).
Proof.
  exact (transport_failure_propagates archive_env (NadlanTaxes 1) None empty_world
           "https://nadlan.taxes.gov.il/some_endpoint?page=1" ConnectionError
           (or_introl eq_refl) eq_refl eq_refl eq_refl).
Defined.

(** X12: a Kaggle-backed fetcher cannot tell a fresh download from a
    leftover: when the destination already holds an entry matching [*.zip]
    and the tool exits with status 0 without changing anything, the call
    still returns the path of an archive. *)
Theorem stale_archive_is_returned env i dest w argv f1 p :
  command_line i dest = Some argv ->
  mkdir_p (or_DATA_DIR dest) (fs w) = inr f1 ->
  zip_in (or_DATA_DIR dest) (fs w) p ->
  run_process env argv f1 = (0, f1) ->
  exists q, (invoke env i dest w).1 = Ok q /\
            zip_in (or_DATA_DIR dest) f1 q /\
            fs (invoke env i dest w).2 = f1.
Proof.
  intros Hc Em (Hd & [n Hn] & Hp & Hpar & Hz) Hrun.
  rewrite (invoke_kaggle_run env i dest argv w Hc). cbn zeta. rewrite Em, Hrun. simpl.
  assert (Hzip : zip_in (or_DATA_DIR dest) f1 p).
  { split_and!; try done.
    - by apply (mkdir_p_is_dir _ _ _ Em).
    - exists n. by apply (mkdir_p_keeps_entries _ _ _ _ _ Em). }
  destruct (glob_zip (or_DATA_DIR dest) f1) as [|z zs] eqn:Eg.
  - exfalso. apply glob_zip_nil in Eg. apply Eg. eauto.
  - exists z. split_and!; try done. apply glob_zip_spec. rewrite Eg. by left.
Qed.

Lemma stale_archive_is_returned_witness :
  let old : FS := <[mkPath "" ["old.zip"] := File "PK"]> ∅ in
  let env := constant_env (plain_response 200 "") 0 in
  exists q, (invoke env KaggleZillow (Some (mkPath "" [])) (mkWorld old [])).1 = Ok q /\
            zip_in (or_DATA_DIR (Some (mkPath "" []))) old q /\
            fs (invoke env KaggleZillow (Some (mkPath "" [])) (mkWorld old [])).2 = old.
Proof.
  refine (stale_archive_is_returned (constant_env (plain_response 200 "") 0) KaggleZillow
            (Some (mkPath "" [])) (mkWorld (<[mkPath "" ["old.zip"] := File "PK"]> ∅) [])
            _ (<[mkPath "" ["old.zip"] := File "PK"]> ∅) (mkPath "" ["old.zip"])
            eq_refl eq_refl _ eq_refl).
  split_and!; [reflexivity | | discriminate | reflexivity | reflexivity].
  exists (File "PK"). apply lookup_insert_eq.
Defined.

End FetcherEffects.

(** ** Effects on the store *)

Section StoreEffects.
Import Storage.

(** X13: [load_parquet] only reads: whatever the backend does and whatever
    the outcome, the store holds the same buckets and objects afterwards,
    and no call other than fetching, reading, closing and releasing is
    made; in particular a missing bucket is not created. *)
Theorem load_parquet_is_read_only codec filename st :
  let run := load_parquet codec filename st in
  buckets run.2 = buckets st /\
  faults run.2 = faults st /\
  forallb is_read_call (drop (length (calls st)) (calls run.2)) = true.
Proof.
  intros run. subst run. unfold load_parquet. cbn zeta.
  unfold bind, get_object, response_read, read_parquet, response_close,
    response_release_conn, backend_call, ret, raise, record. simpl.
  destruct (faults st (length (calls st))); simpl;
    [by rewrite drop_app_length|].
  destruct (buckets st !! MINIO_BUCKET) as [objs|]; simpl;
    [|by rewrite drop_app_length].
  destruct (objs !! str filename) as [data|]; simpl;
    [|by rewrite drop_app_length].
  destruct (faults st _); simpl; [by rewrite <- app_assoc, drop_app_length|].
  destruct (decode_table codec _); simpl; [by rewrite <- app_assoc, drop_app_length|].
  destruct (faults st _); simpl; [by rewrite <- !app_assoc, drop_app_length|].
  destruct (faults st _); simpl; by rewrite <- !app_assoc, drop_app_length.
Qed.

(** X14: loading a key that was never stored, or from a bucket that does
    not exist, fails with the backend's own error after the single
    [get_object] call: nothing is read, closed or released, since no
    response was obtained. *)
Theorem load_parquet_missing_object codec filename st :
  faults st (length (calls st)) = None ->
  (buckets st !! MINIO_BUCKET = None \/
   exists objs, buckets st !! MINIO_BUCKET = Some objs /\ objs !! str filename = None) ->
  let run := load_parquet codec filename st in
  run.1 = Raise (S3Error (if has_bucket st MINIO_BUCKET then "NoSuchKey"
                          else "NoSuchBucket")) /\
  drop (length (calls st)) (calls run.2) = [CGetObject MINIO_BUCKET (str filename)].
Proof.
  intros Hf Hmiss run. subst run.
  assert (E : load_parquet codec filename st =
                (Raise (S3Error (if has_bucket st MINIO_BUCKET then "NoSuchKey"
                                 else "NoSuchBucket")),
                 record (CGetObject MINIO_BUCKET (str filename)) st)).
  { unfold load_parquet. cbn zeta.
    unfold bind at 1. unfold get_object. rewrite (backend_call_ok _ _ _ Hf).
    unfold has_bucket. simpl buckets.
    destruct Hmiss as [Hb | (objs & Hb & Hk)]; rewrite Hb.
    - by rewrite bool_decide_eq_false_2 by (by intros [? ?]).
    - by rewrite Hk, bool_decide_eq_true_2 by eauto. }
  rewrite E. simpl. by rewrite drop_app_length.
Qed.

Lemma load_parquet_missing_object_witness :
  let run := load_parquet codebook_codec (FStr "absent.parquet") corrupt_backend in
  run.1 = Raise (S3Error (if has_bucket corrupt_backend MINIO_BUCKET then "NoSuchKey"
                          else "NoSuchBucket")) /\
  drop (length (calls corrupt_backend)) (calls run.2)
    = [CGetObject MINIO_BUCKET (str (FStr "absent.parquet"))].
Proof.
  refine (load_parquet_missing_object codebook_codec (FStr "absent.parquet")
            corrupt_backend eq_refl _).
  right. exists {[ "bad.parquet" := [x00] ]}. split; [apply lookup_insert_eq|].
  vm_compute. reflexivity.
Defined.

(** X15: [ensure_bucket_exists] never loses data: whatever the backend
    does, every bucket that was there still holds the same objects
    afterwards, the one it was asked about included. *)
Theorem ensure_bucket_exists_keeps_objects client b st b' objs :
  buckets st !! b' = Some objs ->
  buckets (ensure_bucket_exists client b st).2 !! b' = Some objs.
Proof.
  intros Hb. rewrite ensure_bucket_exists_run. cbn zeta.
  destruct (faults st (length (calls st))); [done|].
  destruct (has_bucket st b) eqn:E; [done|].
  destruct (faults st _); [done|]. simpl.
  rewrite lookup_insert_ne; [done|]. intros ->.
  unfold has_bucket in E. apply bool_decide_eq_false in E. apply E. eauto.
Qed.

Lemma ensure_bucket_exists_keeps_objects_witness :
  buckets (ensure_bucket_exists get_minio_client MINIO_BUCKET corrupt_backend).2
    !! MINIO_BUCKET = Some {[ "bad.parquet" := [x00] ]}.
Proof.
  exact (ensure_bucket_exists_keeps_objects get_minio_client MINIO_BUCKET corrupt_backend
           MINIO_BUCKET {[ "bad.parquet" := [x00] ]} (lookup_insert_eq _ _ _)).
Defined.

(** X16: [save_parquet] writes one object and touches nothing else: against
    a backend that does not fail, every other key of the bucket and every
    other bucket hold what they held before, and the key itself holds the
    serialized dataset, replacing what was stored under it. *)
Theorem save_parquet_keeps_other_objects codec df filename st data :
  no_faults st ->
  encode_table codec (columns df) = inr data ->
  let after := buckets (save_parquet codec df filename st).2 in
  (forall b, b <> MINIO_BUCKET -> after !! b = buckets st !! b) /\
  exists objs',
    after !! MINIO_BUCKET = Some objs' /\
    objs' !! str filename = Some data /\
    forall k, k <> str filename ->
      objs' !! k = default ∅ (buckets st !! MINIO_BUCKET) !! k.
Proof.
  intros Hnf He after. subst after.
  rewrite (save_parquet_run _ _ _ _ Hnf). cbn zeta. rewrite He. simpl.
  assert (Hother : forall b, b <> MINIO_BUCKET ->
            buckets (ensured_backend st MINIO_BUCKET) !! b = buckets st !! b).
  { intros b Hb. unfold ensured_backend.
    destruct (has_bucket st MINIO_BUCKET); simpl; [done|].
    by rewrite lookup_insert_ne. }
  assert (Hsame : default ∅ (buckets (ensured_backend st MINIO_BUCKET) !! MINIO_BUCKET)
                  = default ∅ (buckets st !! MINIO_BUCKET)).
  { unfold ensured_backend. destruct (has_bucket st MINIO_BUCKET) eqn:E; simpl; [done|].
    rewrite lookup_insert_eq. unfold has_bucket in E. apply bool_decide_eq_false in E.
    destruct (buckets st !! MINIO_BUCKET); [|done]. exfalso. apply E. eauto. }
  split.
  - intros b Hb. rewrite lookup_insert_ne by done. by apply Hother.
  - eexists. split; [apply lookup_insert_eq|]. split; [apply lookup_insert_eq|].
    intros k Hk. rewrite lookup_insert_ne by done. by rewrite Hsame.
Qed.

Lemma save_parquet_keeps_other_objects_witness :
  let after :=
    buckets (save_parquet codebook_codec sample_frame (FStr "t.parquet")
               corrupt_backend).2 in
  (forall b, b <> MINIO_BUCKET -> after !! b = buckets corrupt_backend !! b) /\
  exists objs',
    after !! MINIO_BUCKET = Some objs' /\
    objs' !! str (FStr "t.parquet") = Some sample_bytes /\
    forall k, k <> str (FStr "t.parquet") ->
      objs' !! k = default ∅ (buckets corrupt_backend !! MINIO_BUCKET) !! k.
Proof.
  exact (save_parquet_keeps_other_objects codebook_codec sample_frame (FStr "t.parquet")
           corrupt_backend sample_bytes (fun _ => eq_refl) eq_refl).
Defined.

(** X17: the last save wins: after two datasets were saved under the same
    key, loading the key returns what the decoder reads from the bytes of
    the second one; nothing of the first is left. *)
Theorem last_save_wins codec df1 df2 filename st data1 data2 t :
  no_faults st ->
  encode_table codec (columns df1) = inr data1 ->
  encode_table codec (columns df2) = inr data2 ->
  decode_table codec data2 = inr t ->
  let st1 := (save_parquet codec df1 filename st).2 in
  let st2 := (save_parquet codec df2 filename st1).2 in
  (load_parquet codec filename st2).1 = Ok (mkDataFrame (range_index (nrows t)) t).
Proof.
  intros Hnf He1 He2 Hd st1 st2. subst st1 st2.
  pose proof (proj1 (ensured_backend_facts st MINIO_BUCKET Hnf)) as Hnf1.
  rewrite (save_parquet_run _ _ _ _ Hnf). cbn zeta. rewrite He1. simpl.
  set (s1 := set_buckets _ (record _ (ensured_backend st MINIO_BUCKET))).
  assert (Hs1 : no_faults s1) by exact Hnf1.
  pose proof (proj1 (ensured_backend_facts s1 MINIO_BUCKET Hs1)) as Hnf2.
  rewrite (save_parquet_run _ _ _ _ Hs1). cbn zeta. rewrite He2. simpl.
  erewrite load_parquet_run.
  - cbn zeta. rewrite Hd. by simpl.
  - exact Hnf2.
  - simpl. apply lookup_insert_eq.
  - apply lookup_insert_eq.
Qed.

Lemma last_save_wins_witness :
  let st1 :=
    (save_parquet pyarrow_codebook sample_frame (FStr "t.parquet") fresh_backend).2 in
  let st2 := (save_parquet pyarrow_codebook nullable_frame (FStr "t.parquet") st1).2 in
  (load_parquet pyarrow_codebook (FStr "t.parquet") st2).1
    = Ok (mkDataFrame (range_index (nrows upcast_table)) upcast_table).
Proof.
  exact (last_save_wins pyarrow_codebook sample_frame nullable_frame
           (FStr "t.parquet") fresh_backend sample_bytes nullable_bytes upcast_table
           (fun _ => eq_refl) eq_refl eq_refl eq_refl).
Defined.

(** X18: a failure of the first backend call of [save_parquet], the bucket
    check, reaches the caller unchanged before anything is serialized: no
    bucket is created and nothing is written. *)
Theorem save_parquet_check_failure codec df filename st e :
  faults st (length (calls st)) = Some e ->
  let run := save_parquet codec df filename st in
  run.1 = Raise e /\
  drop (length (calls st)) (calls run.2) = [CBucketExists MINIO_BUCKET] /\
  buckets run.2 = buckets st.
Proof.
  intros Hf run. subst run.
  assert (E : save_parquet codec df filename st
              = (Raise e, record (CBucketExists MINIO_BUCKET) st)).
  { unfold save_parquet. cbn zeta. unfold bind at 1.
    rewrite ensure_bucket_exists_run. cbn zeta. by rewrite Hf. }
  rewrite E. simpl. by rewrite drop_app_length.
Qed.

Lemma save_parquet_check_failure_witness :
  let st := mkBackend ∅ [] (fun _ => Some ConnectionError) in
  let run := save_parquet codebook_codec sample_frame (FStr "t.parquet") st in
  run.1 = Raise ConnectionError /\
  drop (length (calls st)) (calls run.2) = [CBucketExists MINIO_BUCKET] /\
  buckets run.2 = buckets st.
Proof.
  exact (save_parquet_check_failure codebook_codec sample_frame (FStr "t.parquet")
           (mkBackend ∅ [] (fun _ => Some ConnectionError)) ConnectionError eq_refl).
Defined.

(** X19: [main] prints exactly one item when it returns normally and
    nothing when it raises: the confirmation of a save appears only after
    the object was stored, and a failed load prints no dataset. *)
Theorem main_prints_on_success codec argv c :
  let run := main codec argv c in
  if is_ok run.1 then exists p, stdout run.2 = stdout c ++ [p]
  else stdout run.2 = stdout c.
Proof.
  intros run. subst run. unfold main.
  destruct (length argv <? 3)%nat; [simpl; eauto|]. cbn zeta.
  destruct (String.eqb (nth 1 argv "") "save").
  { unfold bind, on_backend, print.
    destruct (save_parquet codec example_frame (FStr (nth 2 argv "")) (backend c))
      as [[?|?] ?]; simpl; eauto. }
  destruct (String.eqb (nth 1 argv "") "load"); [|simpl; eauto].
  unfold bind, on_backend, print.
  destruct (load_parquet codec (FStr (nth 2 argv "")) (backend c)) as [[?|?] ?];
    simpl; eauto.
Qed.

(** X20: without a command and a file name, or with a command other than
    [save] and [load], [main] prints one line (the usage, or the unknown
    command) and makes no call to the store, even one that is down. *)
Theorem main_without_work codec argv c :
  (length argv < 3)%nat \/ (nth 1 argv "" <> "save" /\ nth 1 argv "" <> "load") ->
  main codec argv c =
    (Ok tt,
     mkCli (backend c)
           (stdout c ++
            [PText (if (length argv <? 3)%nat then usage
                    else "Unknown command: " +:+ nth 1 argv "")])).
Proof.
  intros H. unfold main.
  destruct (length argv <? 3)%nat eqn:E; [done|].
  destruct H as [H | [Hs Hl]]; [apply Nat.ltb_ge in E; lia|].
  cbn zeta.
  destruct (String.eqb_spec (nth 1 argv "") "save"); [done|].
  destruct (String.eqb_spec (nth 1 argv "") "load"); done.
Qed.

Lemma main_without_work_witness :
  main codebook_codec ["storage"; "delete"; "t.parquet"]
       (mkCli (mkBackend ∅ [] (fun _ => Some ConnectionError)) []) =
    (Ok tt,
     mkCli (backend (mkCli (mkBackend ∅ [] (fun _ => Some ConnectionError)) []))
           (stdout (mkCli (mkBackend ∅ [] (fun _ => Some ConnectionError)) []) ++
            [PText (if (length ["storage"; "delete"; "t.parquet"] <? 3)%nat then usage
                    else "Unknown command: " +:+ nth 1 ["storage"; "delete"; "t.parquet"] "")])).
Proof.
  refine (main_without_work codebook_codec ["storage"; "delete"; "t.parquet"]
            (mkCli (mkBackend ∅ [] (fun _ => Some ConnectionError)) []) _).
  right. split; discriminate.
Defined.

(** X21: through the command line, a save followed by a load of the same
    file name prints the confirmation and then the dataset the decoder reads
    from the bytes of the example dataset, with the default row labels,
    provided the backend does not fail and the example is encoded and
    decoded without an error. *)
Theorem main_save_then_load codec prog filename c data t :
  no_faults (backend c) ->
  encode_table codec (columns example_frame) = inr data ->
  decode_table codec data = inr t ->
  let c1 := (main codec [prog; "save"; filename] c).2 in
  let c2 := (main codec [prog; "load"; filename] c1).2 in
  (main codec [prog; "save"; filename] c).1 = Ok tt /\
  (main codec [prog; "load"; filename] c1).1 = Ok tt /\
  stdout c2 = stdout c ++ [PText ("Saved " +:+ filename +:+ " to MinIO.");
                           PFrame (mkDataFrame (range_index (nrows t)) t)].
Proof.
  intros Hnf He Hd c1 c2. subst c1 c2.
  assert (Es : main codec [prog; "save"; filename] c =
            (Ok tt, mkCli (save_parquet codec example_frame (FStr filename) (backend c)).2
                          (stdout c ++ [PText ("Saved " +:+ filename +:+ " to MinIO.")]))).
  { unfold main. simpl. unfold bind, on_backend, print.
    rewrite (save_parquet_run _ _ _ _ Hnf). cbn zeta. rewrite He. done. }
  rewrite Es. simpl.
  set (st1 := (save_parquet codec example_frame (FStr filename) (backend c)).2).
  assert (El : load_parquet codec (FStr filename) st1 =
            let h := length (calls st1) in
            (Ok (mkDataFrame (range_index (nrows t)) t),
             record (CReleaseConn h) (record (CClose h)
               (record (CRead h) (record (CGetObject MINIO_BUCKET filename) st1))))).
  { subst st1. rewrite (save_parquet_run _ _ _ _ Hnf). cbn zeta. rewrite He. simpl.
    erewrite load_parquet_run.
    - cbn zeta. rewrite Hd. done.
    - exact (proj1 (ensured_backend_facts (backend c) MINIO_BUCKET Hnf)).
    - simpl. apply lookup_insert_eq.
    - apply lookup_insert_eq. }
  unfold main. simpl. unfold bind, on_backend, print. simpl. rewrite El. simpl.
  split_and!; try done. by rewrite <- app_assoc.
Qed.

Lemma main_save_then_load_witness :
  let codec := mkCodec (fun _ => inr sample_bytes) (fun _ => inr (columns example_frame)) in
  let c := mkCli fresh_backend [] in
  let c1 := (main codec ["storage"; "save"; "t.parquet"] c).2 in
  let c2 := (main codec ["storage"; "load"; "t.parquet"] c1).2 in
  (main codec ["storage"; "save"; "t.parquet"] c).1 = Ok tt /\
  (main codec ["storage"; "load"; "t.parquet"] c1).1 = Ok tt /\
  stdout c2 = stdout c ++ [PText ("Saved " +:+ "t.parquet" +:+ " to MinIO.");
                           PFrame (mkDataFrame (range_index (nrows (columns example_frame)))
                                               (columns example_frame))].
Proof.
  exact (main_save_then_load
           (mkCodec (fun _ => inr sample_bytes) (fun _ => inr (columns example_frame)))
           "storage" "t.parquet" (mkCli fresh_backend []) sample_bytes
           (columns example_frame) (fun _ => eq_refl) eq_refl eq_refl).
Defined.

End StoreEffects.

(** ** The command line of the fetchers *)

Section FetcherMain.
Import Fetchers.

Lemma fetchers_get_registry env key :
  fetchers_get env key = None <-> ~ In key registry.
Proof.
  unfold fetchers_get, registry.
  repeat match goal with
         | |- context [String.eqb key ?k] =>
             destruct (String.eqb_spec key k) as [->|?];
             [split; [discriminate|intros H; exfalso; apply H; simpl; tauto]|]
         end.
  split; [|reflexivity]. intros _ H. simpl in H. intuition congruence.
Qed.

(** X22: called without a fetcher name, or with a name that is not a key
    of the registry, [main] prints one line (the list of keys, or that the
    fetcher was not found), returns, and touches neither the filesystem nor
    the network. *)
Theorem main_without_fetcher env argv c :
  (length argv < 2)%nat \/ ~ In (nth 1 argv "") registry ->
  main env argv c =
    (Returned,
     mkCli (world c)
       (stdout c ++
        [PText (if (length argv <? 2)%nat
                then "Available fetchers: " +:+ show_list registry
                else "Fetcher '" +:+ nth 1 argv "" +:+ "' not found.")])).
Proof.
  intros H. unfold main. destruct (length argv <? 2)%nat eqn:E; [done|].
  destruct H as [H|H]; [apply Nat.ltb_ge in E; lia|].
  apply (proj2 (fetchers_get_registry env _)) in H. by rewrite H.
Qed.

Lemma main_without_fetcher_witness :
  main archive_env ["fetchers"; "zillow"] (mkCli empty_world []) =
    (Returned,
     mkCli (world (mkCli empty_world []))
       (stdout (mkCli empty_world []) ++
        [PText (if (length ["fetchers"; "zillow"] <? 2)%nat
                then "Available fetchers: " +:+ show_list registry
                else "Fetcher '" +:+ nth 1 ["fetchers"; "zillow"] "" +:+ "' not found.")])).
Proof.
  refine (main_without_fetcher archive_env ["fetchers"; "zillow"]
            (mkCli empty_world []) _).
  right. simpl. intuition discriminate.
Defined.



Lemma datagov_lookup_run env rid w :
  exists r, datagov_lookup env rid w =
    (r, mkWorld (fs w)
          (trace w ++ [EvGet ("https://data.gov.il/api/3/action/resource_show?id=" +:+ rid)])).
Proof.
  unfold datagov_lookup. cbn zeta. unfold bind at 1. unfold requests_get, log. simpl.
  destruct (http env _) as [r|e]; [|eauto].
  unfold bind at 1. rewrite raise_for_status_run.
  destruct (status_failure KindStatus r); [eauto|].
  unfold bind, response_json, subscript, ret, raise.
  destruct (json r) as [info|]; [|eauto].
  destruct info as [| | | | |items]; eauto.
  destruct (dict_get "result" items) as [result|]; [|eauto].
  destruct result as [| | | | |items']; eauto.
  destruct (dict_get "url" items'); eauto.
Qed.

(** X24: [datagov] with a destination argument fails the same way, but only
    after its metadata request went out: the call never returns a path and
    never writes, yet the request has been issued. *)
Theorem main_datagov_destination env prog rid d c :
  d <> "" ->
  let run := main env [prog; "datagov"; rid; d] c in
  run.1 <> Returned /\
  trace (world run.2) =
    trace (world c) ++ [EvGet ("https://data.gov.il/api/3/action/resource_show?id=" +:+ rid)] /\
  fs (world run.2) = fs (world c) /\
  stdout run.2 = stdout c.
Proof.
  intros Hd run. subst run. apply String.eqb_neq in Hd.
  unfold main. simpl. rewrite Hd.
  destruct (datagov_lookup_run env rid (world c)) as [r E]. rewrite E.
  by destruct r.
Qed.

Lemma main_datagov_destination_witness :
  let run := main (datagov_env "https://x.org/a.csv") ["fetchers"; "datagov"; "r1"; "out"]
                  (mkCli empty_world []) in
  run.1 <> Returned /\
  trace (world run.2) =
    trace (world (mkCli empty_world [])) ++
    [EvGet ("https://data.gov.il/api/3/action/resource_show?id=" +:+ "r1")] /\
  fs (world run.2) = fs (world (mkCli empty_world [])) /\
  stdout run.2 = stdout (mkCli empty_world []).
Proof.
  refine (main_datagov_destination (datagov_env "https://x.org/a.csv") "fetchers" "r1" "out"
            (mkCli empty_world []) _).
  discriminate.
Defined.

(** X25: the command line passes numbers as text, and for a decimal number
    that makes no difference: [main] with the year, the page or the city
    code written in decimal does what the fetcher does when called with
    that integer, prints the returned path on success and leaves the
    exception uncaught otherwise. *)
Theorem main_decimal_argument env prog n c :
  let finish (run : Result Path * World) :=
    match run with
    | (Ok p, w) => (Returned, mkCli w (stdout c ++ [PPath p]))
    | (Raise e, w) => (Uncaught e, mkCli w (stdout c))
    end in
  main env [prog; "nadlan_gov"; str_of_int n] c
    = finish (fetch_nadlan_gov_transactions env n None (world c)) /\
  main env [prog; "nadlan_taxes"; str_of_int n] c
    = finish (fetch_nadlan_taxes_transactions env n None (world c)) /\
  main env [prog; "hasadna_air"; str_of_int n] c
    = finish (fetch_hasadna_openmunicipality_air env n None (world c)).
Proof.
  intros finish. subst finish. cbv beta. unfold main. simpl.
  unfold call_nadlan_taxes, call_with_param, called.
  change (fetch_nadlan_gov_transactions_text env (str_of_int n) None)
    with (fetch_nadlan_gov_transactions env n None).
  change (fetch_nadlan_taxes_transactions_text env (str_of_int n) None)
    with (fetch_nadlan_taxes_transactions env n None).
  change (fetch_hasadna_openmunicipality_air_text env (str_of_int n) None)
    with (fetch_hasadna_openmunicipality_air env n None).
  split_and!.
  - by destruct (fetch_nadlan_gov_transactions env n None (world c)) as [[?|?] ?].
  - by destruct (fetch_nadlan_taxes_transactions env n None (world c)) as [[?|?] ?].
  - by destruct (fetch_hasadna_openmunicipality_air env n None (world c)) as [[?|?] ?].
Qed.



(** X27: [main] prints exactly one item when it returns and nothing when
    the call is left with an uncaught exception. *)
Theorem main_prints_on_return env argv c :
  match (main env argv c).1 with
  | Returned => exists p, stdout (main env argv c).2 = stdout c ++ [p]
  | _ => stdout (main env argv c).2 = stdout c
  end.
Proof.
  unfold main. destruct (length argv <? 2)%nat; [simpl; eauto|].
  destruct (fetchers_get env (nth 1 argv "")) as [fn|]; [|simpl; eauto].
  cbn zeta. destruct (fn (drop 2 argv) (world c)) as [[p|e|] w]; simpl; eauto.
Qed.

End FetcherMain.
